(** * LinkedIn post extractor: the fetch / extract pipeline of [app.py]

    The program is a two-stage pipeline.  [get_authenticated_html] drives a
    headless browser to a profile's activity feed and returns a fragment of
    markup; [extract_with_crawl4ai] writes that fragment to a temporary
    file, hands the file to an LLM extraction backend and decodes what comes
    back; [main_app] is the Streamlit front end that chains the two.

    The embedding is shallow.  Every Python coroutine becomes a computation
    in the monad [Py]: it reads and updates the file system, emits the
    observable calls it makes (browser driver, backend, Streamlit) as a list
    of events, and ends either by returning a value or by raising.  The
    collaborators that the program does not implement (the browser driver,
    the secrets store, the crawler, [json.loads]) are records of answers:
    each call is looked up in the record and may answer with a value or with
    an exception.

    Modelling boundary.  Exceptions range over subclasses of [Exception]
    (the process-level signals [KeyboardInterrupt], [SystemExit] and task
    cancellation are not modelled: the program has no cancellation).  The
    file system is a finite map from paths to contents; the operating
    system may refuse to create the temporary file, fail the write, or
    refuse to unlink a file that is there, and the backend may change the
    disk during its call.  [await] points are sequential: one run is a
    single task. *)

From Stdlib Require Import ZArith Bool List Ascii String.
From stdpp Require Import base option list strings pretty gmap.

#[local] Set Warnings "-register-all".

(** ** Python exceptions *)

Inductive exn_class :=
| KeyError
| TypeError
| AttributeError
| JSONDecodeError
| FileNotFoundError
| PermissionError
| OSError
| UnicodeEncodeError
| PlaywrightError
| PlaywrightTimeoutError
| RuntimeError.

Record exn := Exn { exn_cls : exn_class; exn_msg : string }.

(** [isinstance(e, OSError)]: the class itself and its subclasses. *)
Definition is_OSError (e : exn) : bool :=
  match exn_cls e with
  | OSError | FileNotFoundError | PermissionError => true
  | _ => false
  end.

(** [isinstance(e, json.JSONDecodeError)]. *)
Definition is_JSONDecodeError (e : exn) : bool :=
  match exn_cls e with
  | JSONDecodeError => true
  | _ => false
  end.

(** [isinstance(e, Exception)]: every modelled class derives from it. *)
Definition is_Exception (e : exn) : bool := true.

(** What can stop [os.unlink] on a file that is there, and the exception
    Python raises for it: [PermissionError] for [EACCES] and [EPERM], a plain
    [OSError] for the others. *)
Inductive os_fault := EACCES | EPERM | EBUSY | EIO | EROFS.

Definition os_fault_exn (fault : os_fault) (path : string) : exn :=
  match fault with
  | EACCES | EPERM => Exn PermissionError path
  | EBUSY | EIO | EROFS => Exn OSError path
  end.

Inductive outcome (A : Type) :=
| Ret (a : A)
| Raise (e : exn).
Arguments Ret {A} a.
Arguments Raise {A} e.

(** ** Python values decoded from JSON

    [JNull] is Python's [None], [JArr] a list, [JObj] a dict in insertion
    order.  Numbers are the integers; a float literal is outside the model. *)

Inductive json :=
| JNull
| JBool (b : bool)
| JNum (n : Z)
| JStr (s : string)
| JArr (items : list json)
| JObj (fields : list (string * json)).

(** Truth value of a Python object, as [if x:] tests it. *)
Definition truthy (v : json) : bool :=
  match v with
  | JNull => false
  | JBool b => b
  | JNum n => negb (n =? 0)%Z
  | JStr s => negb (String.eqb s "")
  | JArr [] => false
  | JArr (_ :: _) => true
  | JObj [] => false
  | JObj (_ :: _) => true
  end.

(** Truth value of an [Optional[str]]: [None] and [""] are false. *)
Definition truthy_html (h : option string) : bool :=
  match h with
  | None => false
  | Some s => negb (String.eqb s "")
  end.

(** [needle in hay] on [str]. *)
Fixpoint str_contains (needle hay : string) : bool :=
  String.prefix needle hay
  || match hay with
     | EmptyString => false
     | String _ rest => str_contains needle rest
     end.

(** ** Observable calls *)

Record cookie := Cookie {
  cookie_name : string;
  cookie_value : string;
  cookie_domain : string;
  cookie_path : string }.

(** What [LLMExtractionStrategy(...)] is built from. *)
Record strategy := Strategy {
  provider : string;
  api_token : string;
  instruction : string;
  extract_type : string;
  schema : string;
  extra_args : list (string * Z);
  verbose : bool }.

Inductive event :=
(* Playwright *)
| PlaywrightStart
| PlaywrightStop
| Launch (headless : bool)
| NewContext
| AddCookies (cookies : list cookie)
| NewPage
| Goto (url wait_until : string) (timeout : Z)
| Sleep (seconds : Z)
| QuerySelector (selector : string)
| InnerHtml
| PageContent
| BrowserClose
(* temporary file and secrets *)
| TempFileCreate (path : string)
| FileWrite (path content : string)
| SecretsGet (key : string)
| Unlink (path : string)
(* Crawl4AI *)
| CrawlerStart
| CrawlerRun (url : string) (config : strategy)
| CrawlerClose
(* Streamlit *)
| st_title (text : string)
| st_markdown (text : string)
| st_text_input (label : string)
| st_button (label : string)
| st_status (label : string) (expanded : bool)
| st_error (text : string)
| st_success (text : string)
| st_warning (text : string)
| st_json (value : json)
| st_header (text : string)
| st_subheader (text : string)
| st_columns (n : Z)
| st_write (label : string) (value : json)
| st_exception (e : exn)
| status_update (label state : string) (expanded : bool).

(** ** The monad of coroutines *)

Module Py.

Record run (A : Type) := Run {
  result : outcome A;
  disk : gmap string string;
  events : list event }.
Arguments Run {A} result disk events.
Arguments result {A} r.
Arguments disk {A} r.
Arguments events {A} r.

Definition t (A : Type) : Type := gmap string string → run A.

Definition ret {A} (a : A) : t A := λ d, Run (Ret a) d [].

Definition bind {A B} (m : t A) (k : A → t B) : t B :=
  λ d,
    match m d with
    | Run (Ret a) d1 t1 =>
        match k a d1 with
        | Run r d2 t2 => Run r d2 (t1 ++ t2)
        end
    | Run (Raise e) d1 t1 => Run (Raise e) d1 t1
    end.

Definition raise {A} (e : exn) : t A := λ d, Run (Raise e) d [].

Definition emit (ev : event) : t unit := λ d, Run (Ret tt) d [ev].

(** The answer of a collaborator, turned into a return or a raise. *)
Definition lift {A} (o : outcome A) : t A := λ d, Run o d [].

(** [try: m  except C: h], where [handles] decides [isinstance(e, C)]. *)
Definition try_except {A} (handles : exn → bool) (m : t A) (h : exn → t A) : t A :=
  λ d,
    match m d with
    | Run (Raise e) d1 t1 =>
        if handles e then
          match h e d1 with
          | Run r d2 t2 => Run r d2 (t1 ++ t2)
          end
        else Run (Raise e) d1 t1
    | r => r
    end.

(** [try: m  finally: c].  The clean-up runs on return and on raise; what
    it raises itself replaces the pending outcome. *)
Definition try_finally {A} (m : t A) (c : t unit) : t A :=
  λ d,
    match m d with
    | Run r d1 t1 =>
        match c d1 with
        | Run (Ret _) d2 t2 => Run r d2 (t1 ++ t2)
        | Run (Raise e) d2 t2 => Run (Raise e) d2 (t1 ++ t2)
        end
    end.

End Py.

Abbreviation Py := Py.t.

Global Instance Py_ret : MRet Py := @Py.ret.
Global Instance Py_bind : MBind Py := λ A B k m, Py.bind m k.

(** A call to a collaborator: the call is observed, then it answers. *)
Definition call {A} (ev : event) (answer : outcome A) : Py A :=
  Py.emit ev;; Py.lift answer.

(** [async with enter as x: body x].  When [enter] raises the block is
    never entered; once entered, [leave] runs however the body ends. *)
Definition async_with {X A} (enter : Py X) (leave : Py unit) (body : X → Py A) : Py A :=
  x ← enter; Py.try_finally (body x) leave.

(** A [for] loop whose body either asks for the next item ([None]) or
    leaves the loop with a value ([Some v]: a [break] or a [return]). *)
Fixpoint for_loop {A R} (items : list A) (body : A → Py (option R)) : Py (option R) :=
  match items with
  | [] => mret None
  | x :: rest =>
      r ← body x;
      match r with
      | Some v => mret (Some v)
      | None => for_loop rest body
      end
  end.

(** ** The browser driver *)

Record element := Element {
  inner_html : outcome string }.

(** A page as it stands after navigation and the settle delay. *)
Record page := Page {
  page_url : string;
  query_selector : string → outcome (option element);
  content : outcome string }.

Record Browser := {
  engine_start : outcome unit;
  launch : outcome unit;
  new_context : outcome unit;
  add_cookies : list cookie → outcome unit;
  new_page : outcome unit;
  goto : list cookie → string → outcome page;
  close : outcome unit }.

(** ** [get_authenticated_html] *)

(** The test on [page.url] after navigation. *)
Definition is_login_redirect (current_url : string) : bool :=
  str_contains "login" current_url || str_contains "checkpoint" current_url.

Definition selectors_to_try : list string :=
  [ "ul.display-flex.flex-wrap.list-style-none.justify-center";
    ".scaffold-finite-scroll__content";
    ".application-outlet main" ].

(** One turn of the selector loop.  [Some html] is the [break] taken with
    [feed_html = html]; [None] moves on to the next selector, either because
    nothing matched or through [except Exception: continue]. *)
Definition probe (pg : page) (selector : string) : Py (option string) :=
  Py.try_except is_Exception
    (feed_element ← call (QuerySelector selector) (query_selector pg selector);
     match feed_element with
     | Some el =>
         feed_html ← call InnerHtml (inner_html el);
         Py.emit (st_success ("✅ Found feed container with selector: " +:+ selector));;
         mret (Some feed_html)
     | None => mret None
     end)
    (λ _, mret None).

(** Lines 42 to 64: the selector loop, the full-page fallback, the close and
    the return. *)
Definition harvest (b : Browser) (pg : page) : Py (option string) :=
  feed_html ← for_loop selectors_to_try (probe pg);
  feed_html ←
    (if negb (truthy_html feed_html) then
       Py.emit (st_warning "⚠️ No specific container found, using full page HTML.");;
       whole ← call PageContent (content pg);
       mret (Some whole)
     else mret feed_html);
  call BrowserClose (close b);;
  mret feed_html.

Definition get_authenticated_html (b : Browser) (li_at_cookie url : string)
  : Py (option string) :=
  async_with (call PlaywrightStart (engine_start b)) (Py.emit PlaywrightStop) (λ _,
    call (Launch true) (launch b);;
    call NewContext (new_context b);;
    let cookies := [Cookie "li_at" li_at_cookie ".linkedin.com" "/"] in
    call (AddCookies cookies) (add_cookies b cookies);;
    call NewPage (new_page b);;
    Py.emit (st_status "🌐 Loading LinkedIn with Playwright..." true);;
    pg ← call (Goto url "networkidle" 60000) (goto b cookies url);
    Py.emit (Sleep 5);;
    let current_url := page_url pg in
    if is_login_redirect current_url then
      Py.emit (st_error "❌ LinkedIn redirected to login - cookie is expired or invalid!");;
      call BrowserClose (close b);;
      mret None
    else
      harvest b pg).

(** ** The extraction backend, the secrets store and the temporary file *)

(** One result object of [crawler.arun]; [extracted_content] is
    [Optional[str]]. *)
Record CrawlResult := {
  success : bool;
  extracted_content : option string }.

Record Services := {
  (** the name [NamedTemporaryFile] picks; it is an absolute path *)
  temp_name : string;
  (** [NamedTemporaryFile(...)]: the file is created, or the call raises *)
  temp_create : outcome unit;
  (** [f.write(text)] and the flush when the [with] block closes the file *)
  temp_write : string → outcome unit;
  (** what stops [os.unlink] on a path that is there, if anything *)
  unlink_fault : string → option os_fault;
  (** [st.secrets] *)
  secrets : gmap string string;
  (** [AsyncWebCrawler().__aenter__()] *)
  crawler_start : outcome unit;
  (** [crawler.arun]: it sees the file system, answers, and may leave the
      file system changed *)
  arun : gmap string string → string → strategy
         → outcome (list CrawlResult) * gmap string string;
  (** [json.loads] on a [str]: [None] stands for [JSONDecodeError] *)
  json_loads : string → option json }.

(** [NamedTemporaryFile(mode='w', suffix='.html', delete=False)], the write
    and the close that ends the [with] block.  A creation that raises leaves
    no file; a write that raises leaves the file as created, since
    [delete=False] keeps it when the block is left. *)
Definition write_temp_file (s : Services) (text : string) : Py unit :=
  let path := temp_name s in
  λ d,
    match temp_create s with
    | Raise e => Py.Run (Raise e) d [TempFileCreate path]
    | Ret _ =>
        match temp_write s text with
        | Ret _ =>
            Py.Run (Ret tt) (<[path := text]> (<[path := ""]> d))
                   [TempFileCreate path; FileWrite path text]
        | Raise e =>
            Py.Run (Raise e) (<[path := ""]> d)
                   [TempFileCreate path; FileWrite path text]
        end
    end.

(** [os.path.abspath] of a path that is absolute already. *)
Definition abspath (path : string) : string := path.

(** [st.secrets[key]]. *)
Definition secrets_get (s : Services) (key : string) : Py string :=
  call (SecretsGet key)
       (match secrets s !! key with
        | Some v => Ret v
        | None => Raise (Exn KeyError key)
        end).

Definition crawler_arun (s : Services) (url : string) (config : strategy)
  : Py (list CrawlResult) :=
  λ d, let '(answer, d') := arun s d url config in
       Py.Run answer d' [CrawlerRun url config].

(** [json.loads(x)] for [x : Optional[str]]. *)
Definition py_json_loads (s : Services) (x : option string) : Py json :=
  match x with
  | None =>
      Py.raise (Exn TypeError
        "the JSON object must be str, bytes or bytearray, not NoneType")
  | Some text =>
      match json_loads s text with
      | Some v => mret v
      | None => Py.raise (Exn JSONDecodeError "Expecting value")
      end
  end.

(** [os.unlink(path)]: [FileNotFoundError] on a path that is absent; on a
    path that is there, the file is removed unless the system refuses. *)
Definition os_unlink (s : Services) (path : string) : Py unit :=
  λ d, match d !! path with
       | Some _ =>
           match unlink_fault s path with
           | None => Py.Run (Ret tt) (delete path d) [Unlink path]
           | Some fault => Py.Run (Raise (os_fault_exn fault path)) d [Unlink path]
           end
       | None => Py.Run (Raise (Exn FileNotFoundError path)) d [Unlink path]
       end.

(** ** [extract_with_crawl4ai] *)

Definition llm_instruction : string :=
  "You are analyzing LinkedIn activity feed HTML. Focus ONLY on the FIRST 3 posts at the TOP.
Extract the 'apply_link', 'eligibility', 'company_name', 'stipend', 'job_title', 'location', and 'timestamp'.
Return as a JSON array.".

(** The schema is a triple-quoted literal whose keys and values sit in
    double quotes. *)
Definition quoted (text : string) : string :=
  String "034"%char (text +:+ String "034"%char "").

Definition schema_field (key after : string) : string :=
  "                " +:+ quoted key +:+ ": " +:+ quoted "string or null" +:+ after.

Definition llm_schema : string :=
  "[{
" +:+ schema_field "apply_link" ",
" +:+ schema_field "eligibility" ", 
" +:+ schema_field "company_name" ",
" +:+ schema_field "stipend" ",
" +:+ schema_field "job_title" ",
" +:+ schema_field "location" ",
" +:+ schema_field "timestamp" "
" +:+ "            }]".

(** [LLMExtractionStrategy(llm_config=LLMConfig(...), ...)] for a given token;
    the temperature [0.0] is written as the integer. *)
Definition llm_strategy (llm_api_key : string) : strategy :=
  {| provider := "groq/meta-llama/llama-4-scout-17b-16e-instruct";
     api_token := llm_api_key;
     instruction := llm_instruction;
     extract_type := "schema";
     schema := llm_schema;
     extra_args := [("temperature", 0%Z); ("max_tokens", 4096%Z)];
     verbose := true |}.

(** The clean-up of the [finally] clause:
    [try: os.unlink(p)  except OSError: pass]. *)
Definition cleanup (s : Services) (temp_html_path : string) : Py unit :=
  Py.try_except is_OSError (os_unlink s temp_html_path) (λ _, mret tt).

(** The body of [for result in results].  Every branch ends in [return]. *)
Definition handle_result (s : Services) (result : CrawlResult) : Py (option json) :=
  if success result then
    Py.try_except is_JSONDecodeError
      (data ← py_json_loads s (extracted_content result);
       Py.emit (st_success "✅ Crawl4AI extraction successful!");;
       mret (Some data))
      (λ _,
        Py.emit (st_error "❌ Failed to parse Crawl4AI JSON output.");;
        Py.emit (st_json (JObj [("raw_content",
                   match extracted_content result with
                   | Some raw => JStr raw
                   | None => JNull
                   end)]));;
        mret (Some (JArr [])))
  else
    Py.emit (st_error "❌ Crawl4AI extraction failed.");;
    mret (Some (JArr [])).

(** The [try] block. *)
Definition extract_body (s : Services) (temp_html_path : string) : Py json :=
  let file_url := "file://" +:+ abspath temp_html_path in
  llm_api_key ← secrets_get s "GROQ_API_KEY";
  let extraction_strategy := llm_strategy llm_api_key in
  Py.emit (st_status "🤖 Running Crawl4AI extraction..." true);;
  async_with (call CrawlerStart (crawler_start s)) (Py.emit CrawlerClose) (λ _,
    results ← crawler_arun s file_url extraction_strategy;
    returned ← for_loop results (handle_result s);
    match returned with
    | Some v => mret v
    | None => mret JNull            (* the loop ran out: the function ends *)
    end).

Definition extract_with_crawl4ai (s : Services) (html_content : string) : Py json :=
  write_temp_file s ("<html><body>" +:+ html_content +:+ "</body></html>");;
  let temp_html_path := temp_name s in
  Py.try_finally (extract_body s temp_html_path) (cleanup s temp_html_path).

(** ** [main_app] *)

(** What the two widgets and the button hand back on this script run. *)
Record Inputs := {
  li_at_input : string;
  url_input : string;
  start_clicked : bool }.

(** [post.get(key, 'N/A')]: only a dict has [get]. *)
Fixpoint dict_lookup (key : string) (fields : list (string * json)) : option json :=
  match fields with
  | [] => None
  | (k, v) :: rest => if String.eqb k key then Some v else dict_lookup key rest
  end.

Definition post_get (post : json) (key : string) : Py json :=
  match post with
  | JObj fields => mret (default (JStr "N/A") (dict_lookup key fields))
  | _ => Py.raise (Exn AttributeError "object has no attribute 'get'")
  end.

(** [st.write(f"**Label:** {post.get(key, 'N/A')}")]; the interpolated value
    is recorded as it is, not as text. *)
Definition write_field (post : json) (label key : string) : Py unit :=
  v ← post_get post key;
  Py.emit (st_write label v).

(** [iter(x)] for a decoded value. *)
Fixpoint chars (text : string) : list json :=
  match text with
  | EmptyString => []
  | String c rest => JStr (String c "") :: chars rest
  end.

Definition py_iter (v : json) : Py (list json) :=
  match v with
  | JArr items => mret items
  | JObj fields => mret (map (λ kv, JStr (fst kv)) fields)
  | JStr text => mret (chars text)
  | _ => Py.raise (Exn TypeError "object is not iterable")
  end.

(** [for i, post in enumerate(extracted_data)], from index [i] on. *)
Fixpoint show_posts (i : nat) (posts : list json) : Py unit :=
  match posts with
  | [] => mret tt
  | post :: rest =>
      Py.emit (st_subheader ("Post " +:+ pretty (i + 1)));;
      Py.emit (st_columns 2);;
      write_field post "**Company:**" "company_name";;
      write_field post "**Job Title:**" "job_title";;
      write_field post "**Location:**" "location";;
      write_field post "**Timestamp:**" "timestamp";;
      write_field post "**Eligibility:**" "eligibility";;
      write_field post "**Stipend:**" "stipend";;
      write_field post "**Apply Link:**" "apply_link";;
      show_posts (S i) rest
  end.

(** The [if html_content:] block. *)
Definition run_extraction (s : Services) (html_content : option string) : Py unit :=
  match html_content with
  | Some html =>
      if truthy_html (Some html) then
        extracted_data ← extract_with_crawl4ai s html;
        Py.emit (status_update "Extraction Complete!" "complete" false);;
        if truthy extracted_data then
          Py.emit (st_header "📊 Final Results");;
          Py.emit (st_json extracted_data);;
          Py.emit (st_header "📋 Formatted Output");;
          posts ← py_iter extracted_data;
          show_posts 0 posts
        else
          Py.emit (st_error "❌ No data was extracted. Check the logs above for details.")
      else mret tt
  | None => mret tt
  end.

Definition main_app (b : Browser) (s : Services) (ui : Inputs) : Py unit :=
  Py.emit (st_title "LinkedIn Post Extractor");;
  Py.emit (st_markdown
    "Enter your LinkedIn 'li_at' cookie and a profile URL to extract recent posts.");;
  Py.emit (st_text_input "Enter your 'li_at' cookie:");;
  let li_at_cookie := li_at_input ui in
  Py.emit (st_text_input "Enter LinkedIn activity URL:");;
  let activity_url := url_input ui in
  Py.emit (st_button "Start Extraction");;
  if start_clicked ui then
    if negb (truthy_html (Some li_at_cookie)) then
      Py.emit (st_error "Please enter your 'li_at' cookie.")
    else
      Py.emit (st_status "Initializing..." true);;
      Py.try_except is_Exception
        (html_content ← get_authenticated_html b li_at_cookie activity_url;
         run_extraction s html_content)
        (λ e,
          Py.emit (st_exception e);;
          Py.emit (status_update "An error occurred" "error" true))
  else mret tt.

(** ** Test doubles *)

Module Double.

Definition feed : element := {| inner_html := Ret "<li>post</li>" |}.

Definition empty_feed : element := {| inner_html := Ret "" |}.

(** A feed page whose first selector matches. *)
Definition feed_page : page :=
  {| page_url := "https://www.linkedin.com/in/someone/recent-activity/all/";
     query_selector := λ sel,
       if String.eqb sel "ul.display-flex.flex-wrap.list-style-none.justify-center"
       then Ret (Some feed) else Ret None;
     content := Ret "<html><body>whole page</body></html>" |}.

(** The same page with an empty feed container. *)
Definition empty_feed_page : page :=
  {| page_url := page_url feed_page;
     query_selector := λ sel,
       if String.eqb sel "ul.display-flex.flex-wrap.list-style-none.justify-center"
       then Ret (Some empty_feed) else Ret None;
     content := content feed_page |}.

(** A page on which no selector matches. *)
Definition bare_page : page :=
  {| page_url := page_url feed_page;
     query_selector := λ _, Ret None;
     content := content feed_page |}.

(** Where an expired cookie ends up. *)
Definition login_page : page :=
  {| page_url := "https://www.linkedin.com/login?session_redirect=feed";
     query_selector := λ _, Ret None;
     content := Ret "<html><body>Sign in</body></html>" |}.

(** A driver on which every call succeeds and navigation lands on [pg]. *)
Definition browser (pg : page) : Browser :=
  {| engine_start := Ret tt;
     launch := Ret tt;
     new_context := Ret tt;
     add_cookies := λ _, Ret tt;
     new_page := Ret tt;
     goto := λ _ _, Ret pg;
     close := Ret tt |}.

(** A driver whose navigation times out. *)
Definition stalled_browser : Browser :=
  {| engine_start := Ret tt;
     launch := Ret tt;
     new_context := Ret tt;
     add_cookies := λ _, Ret tt;
     new_page := Ret tt;
     goto := λ _ _, Raise (Exn PlaywrightTimeoutError "Timeout 60000ms exceeded.");
     close := Ret tt |}.

(** A decoder that knows the documents used below. *)
Definition loads (text : string) : option json :=
  if String.eqb text "[]" then Some (JArr [])
  else if String.eqb text "[{}]" then Some (JArr [JObj []])
  else if String.eqb text "{}" then Some (JObj [])
  else None.

(** A backend that answers [results] and leaves the disk alone. *)
Definition services (keys : gmap string string) (results : outcome (list CrawlResult))
  : Services :=
  {| temp_name := "/tmp/tmpab12cd34.html";
     temp_create := Ret tt;
     temp_write := λ _, Ret tt;
     unlink_fault := λ _, None;
     secrets := keys;
     crawler_start := Ret tt;
     arun := λ d _ _, (results, d);
     json_loads := loads |}.

Definition keys : gmap string string := {[ "GROQ_API_KEY" := "gsk_test" ]}.

End Double.

(** ** Vocabulary of the statements *)

(** The cookie that [get_authenticated_html] installs. *)
Definition li_at (value : string) : list cookie :=
  [Cookie "li_at" value ".linkedin.com" "/"].

(** The driver starts, the context takes the cookie, and navigation to
    [url] ends on the page [pg]. *)
Definition lands_on (b : Browser) (li_at_cookie url : string) (pg : page) : Prop :=
  engine_start b = Ret tt ∧ launch b = Ret tt ∧ new_context b = Ret tt
  ∧ add_cookies b (li_at li_at_cookie) = Ret tt ∧ new_page b = Ret tt
  ∧ goto b (li_at li_at_cookie) url = Ret pg.

(** [selector] resolves to a present element of [pg]. *)
Definition resolves (pg : page) (selector : string) : Prop :=
  ∃ el, query_selector pg selector = Ret (Some el).

(** Calls that only the extraction stage makes. *)
Definition orchestrator_event (ev : event) : bool :=
  match ev with
  | TempFileCreate _ | FileWrite _ _ | SecretsGet _ | Unlink _
  | CrawlerStart | CrawlerRun _ _ | CrawlerClose => true
  | _ => false
  end.

Definition invokes_orchestrator (trace : list event) : bool :=
  existsb orchestrator_event trace.

(** Calls that probe a selector or capture the page. *)
Definition probing_event (ev : event) : bool :=
  match ev with
  | QuerySelector _ | InnerHtml | PageContent => true
  | _ => false
  end.

(** [s] with the answer of [crawler.arun] replaced. *)
Definition with_answer (s : Services) (o : outcome (list CrawlResult)) : Services :=
  {| temp_name := temp_name s;
     temp_create := temp_create s;
     temp_write := temp_write s;
     unlink_fault := unlink_fault s;
     secrets := secrets s;
     crawler_start := crawler_start s;
     arun := λ d url config, (o, (arun s d url config).2);
     json_loads := json_loads s |}.

(** What a run has done by the time the page has settled. *)
Definition landing_events (li_at_cookie url : string) : list event :=
  [ PlaywrightStart; Launch true; NewContext; AddCookies (li_at li_at_cookie);
    NewPage; st_status "🌐 Loading LinkedIn with Playwright..." true;
    Goto url "networkidle" 60000; Sleep 5 ].

Definition auth_error : event :=
  st_error "❌ LinkedIn redirected to login - cookie is expired or invalid!".

Definition fallback_warning : event :=
  st_warning "⚠️ No specific container found, using full page HTML.".

Definition found (selector : string) : event :=
  st_success ("✅ Found feed container with selector: " +:+ selector).

(** What [main_app] has shown by the time it starts the fetch. *)
Definition form_events : list event :=
  [ st_title "LinkedIn Post Extractor";
    st_markdown
      "Enter your LinkedIn 'li_at' cookie and a profile URL to extract recent posts.";
    st_text_input "Enter your 'li_at' cookie:";
    st_text_input "Enter LinkedIn activity URL:";
    st_button "Start Extraction" ].

(** The document shell written to the temporary file. *)
Definition shell (html_content : string) : string :=
  "<html><body>" +:+ html_content +:+ "</body></html>".

(** The disk once the temporary file is written. *)
Definition disk_with_shell (s : Services) (html_content : string)
    (d : gmap string string) : gmap string string :=
  <[temp_name s := shell html_content]> (<[temp_name s := ""]> d).

(** The temporary file is created and the document shell written to it. *)
Definition temp_file_written (s : Services) (html_content : string) : Prop :=
  temp_create s = Ret tt ∧ temp_write s (shell html_content) = Ret tt.

(** The disk once the clean-up has run: the path is removed, unless it is
    there and the system refuses to unlink it. *)
Definition after_cleanup (s : Services) (path : string)
    (d : gmap string string) : gmap string string :=
  match d !! path, unlink_fault s path with
  | Some _, Some _ => d
  | _, _ => delete path d
  end.

(** The claim C6 as the specification words it: after the extraction the
    temporary file is not on the disk. *)
Definition claim_temp_file_gone_as_stated : Prop :=
  ∀ (s : Services) (html_content : string) d,
    Py.disk (extract_with_crawl4ai s html_content d) !! temp_name s = None.

(** What [crawler.arun] answers on the run of the extraction that starts on
    disk [d] with the token [key]. *)
Definition backend_answer (s : Services) (html_content key : string)
    (d : gmap string string) : outcome (list CrawlResult) :=
  (arun s (disk_with_shell s html_content d)
     ("file://" +:+ temp_name s) (llm_strategy key)).1.

(** The claim C4 as the specification words it: whenever the first
    candidate selector resolves to a present element, the fetch returns that
    element's inner markup. *)
Definition claim_first_match_as_stated : Prop :=
  ∀ (b : Browser) (li_at_cookie url : string) (pg : page) (first : string)
    (el : element) (html : string) d,
    lands_on b li_at_cookie url pg →
    is_login_redirect (page_url pg) = false →
    close b = Ret tt →
    head selectors_to_try = Some first →
    query_selector pg first = Ret (Some el) →
    inner_html el = Ret html →
    Py.result (get_authenticated_html b li_at_cookie url d) = Ret (Some html).

(** The claim C1 as the specification words it: the extraction never raises
    to its caller. *)
Definition claim_never_raises_as_stated : Prop :=
  ∀ (s : Services) (html_content : string) d,
    ∃ v, Py.result (extract_with_crawl4ai s html_content d) = Ret v.

(** ** Vocabulary of the further properties *)

Definition is_goto (ev : event) : bool :=
  match ev with
  | Goto _ _ _ => true
  | _ => false
  end.

Definition is_browser_close (ev : event) : bool :=
  match ev with
  | BrowserClose => true
  | _ => false
  end.

Definition is_playwright_start (ev : event) : bool :=
  match ev with
  | PlaywrightStart => true
  | _ => false
  end.

(** What the user gets to see: the Streamlit calls. *)
Definition is_streamlit (ev : event) : bool :=
  match ev with
  | st_title _ | st_markdown _ | st_text_input _ | st_button _ | st_status _ _
  | st_error _ | st_success _ | st_warning _ | st_json _ | st_header _
  | st_subheader _ | st_columns _ | st_write _ _ | st_exception _
  | status_update _ _ _ => true
  | _ => false
  end.

(** The calls of a fetch up to and including the navigation. *)
Definition navigation_prefix (li_at_cookie url : string) : list event :=
  [ PlaywrightStart; Launch true; NewContext; AddCookies (li_at li_at_cookie);
    NewPage; st_status "🌐 Loading LinkedIn with Playwright..." true;
    Goto url "networkidle" 60000 ].

(** The guarded block of [main_app]: the fetch, then the extraction block. *)
Definition pipeline (b : Browser) (s : Services) (li_at_cookie url : string) : Py unit :=
  html_content ← get_authenticated_html b li_at_cookie url;
  run_extraction s html_content.

Definition error_report (e : exn) : list event :=
  [ st_exception e; status_update "An error occurred" "error" true ].

Definition no_data_error : event :=
  st_error "❌ No data was extracted. Check the logs above for details.".

Definition extraction_complete : event :=
  status_update "Extraction Complete!" "complete" false.

(** The labels and keys of the formatted output, in the order written. *)
Definition fields_shown : list (string * string) :=
  [ ("**Company:**", "company_name"); ("**Job Title:**", "job_title");
    ("**Location:**", "location"); ("**Timestamp:**", "timestamp");
    ("**Eligibility:**", "eligibility"); ("**Stipend:**", "stipend");
    ("**Apply Link:**", "apply_link") ].

(** What the formatted output shows for the [n]-th post, a dict. *)
Definition post_card (n : nat) (fields : list (string * json)) : list event :=
  st_subheader ("Post " +:+ pretty n)
  :: st_columns 2
  :: map (λ lk, st_write lk.1 (default (JStr "N/A") (dict_lookup lk.2 fields)))
         fields_shown.

(** The cards of consecutive posts, the first one numbered [n]. *)
Fixpoint post_cards (n : nat) (dicts : list (list (string * json))) : list event :=
  match dicts with
  | [] => []
  | fields :: rest => post_card n fields ++ post_cards (S n) rest
  end.

Definition is_dict (v : json) : bool :=
  match v with
  | JObj _ => true
  | _ => false
  end.

(** The calls of an extraction up to the start of the crawler. *)
Definition extraction_prefix (s : Services) (html_content : string) : list event :=
  [ TempFileCreate (temp_name s); FileWrite (temp_name s) (shell html_content);
    SecretsGet "GROQ_API_KEY" ].

Definition crawl_events (s : Services) (key : string) : list event :=
  [ st_status "🤖 Running Crawl4AI extraction..." true; CrawlerStart;
    CrawlerRun ("file://" +:+ temp_name s) (llm_strategy key) ].

Module Sample.

(** A page on which only the second candidate selector matches. *)
Definition second_match_page : page :=
  {| page_url := "https://www.linkedin.com/in/someone/recent-activity/all/";
     query_selector := λ sel,
       if String.eqb sel ".scaffold-finite-scroll__content"
       then Ret (Some {| inner_html := Ret "<div>feed</div>" |})
       else Ret None;
     content := Ret "<html><body>whole page</body></html>" |}.

(** The feed of a member whose handle contains the word "login". *)
Definition handle_page : page :=
  {| page_url := "https://www.linkedin.com/in/loginov/recent-activity/all/";
     query_selector := query_selector Double.feed_page;
     content := content Double.feed_page |}.

(** A driver that fails to create the page. *)
Definition no_page_browser : Browser :=
  {| engine_start := Ret tt;
     launch := Ret tt;
     new_context := Ret tt;
     add_cookies := λ _, Ret tt;
     new_page := Raise (Exn PlaywrightError "Target closed");
     goto := λ _ _, Ret Double.feed_page;
     close := Ret tt |}.


(** A system that refuses to unlink: the file is held open elsewhere. *)
Definition locked : Services :=
  {| temp_name := "/tmp/tmpab12cd34.html";
     temp_create := Ret tt;
     temp_write := λ _, Ret tt;
     unlink_fault := λ _, Some EACCES;
     secrets := Double.keys;
     crawler_start := Ret tt;
     arun := λ d _ _, (Ret [{| success := false; extracted_content := None |}], d);
     json_loads := Double.loads |}.

(** A fragment that cannot be encoded: the write raises. *)
Definition unwritable : Services :=
  {| temp_name := "/tmp/tmpab12cd34.html";
     temp_create := Ret tt;
     temp_write := λ _, Raise (Exn UnicodeEncodeError "surrogates not allowed");
     unlink_fault := λ _, None;
     secrets := Double.keys;
     crawler_start := Ret tt;
     arun := λ d _ _, (Ret [], d);
     json_loads := Double.loads |}.

(** The cookie a fetch installs, whatever else an event carries. *)
Definition recookie (li_at_cookie : string) (ev : event) : event :=
  match ev with
  | AddCookies _ => AddCookies (li_at li_at_cookie)
  | _ => ev
  end.

End Sample.

(** ** Running the monad *)

Ltac py_unfold :=
  unfold async_with, call, mbind, Py_bind, Py.bind, mret, Py_ret, Py.ret,
    Py.emit, Py.lift, Py.raise, Py.try_finally, Py.try_except in *.

(** Walking through the body of the fetch, one driver call at a time, with
    the selector loop kept abstract as [loop]. *)
Ltac fetch_walk b url loop :=
  unfold get_authenticated_html, harvest;
  generalize (@for_loop string string selectors_to_try); intros loop;
  py_unfold; simpl;
  destruct (engine_start b); simpl; [
  destruct (launch b); simpl; [
  destruct (new_context b); simpl; [
  destruct (add_cookies b _); simpl; [
  destruct (new_page b); simpl; [
  destruct (goto b _ url) as [?pg|]; simpl; [
  destruct (is_login_redirect (page_url _)); simpl; [
    destruct (close b); simpl
  | match goal with
    | |- context [loop ?body ?d] =>
        destruct (loop body d) as [[?fh|?] ?d ?t] eqn:?; simpl; [
        destruct (negb (truthy_html _)); simpl; [
          destruct (content _); simpl; [ destruct (close b); simpl | ]
        | destruct (close b); simpl ] | ]
    end ] | ] | ] | ] | ] | ] | ].

Lemma async_with_entered {X A} (start stop : event) (x : X) (body : X → Py A) d :
  async_with (call start (Ret x)) (Py.emit stop) body d
  = Py.Run (Py.result (body x d)) (Py.disk (body x d))
           (start :: Py.events (body x d) ++ [stop]).
Proof. unfold async_with, call. py_unfold. simpl. by destruct (body x d). Qed.

(** ** The session fetcher *)

(** One turn of the loop, by cases on what the driver answers. *)
Lemma probe_run (pg : page) (selector : string) d :
  probe pg selector d
  = match query_selector pg selector with
    | Ret (Some el) =>
        match inner_html el with
        | Ret html =>
            Py.Run (Ret (Some html)) d [QuerySelector selector; InnerHtml; found selector]
        | Raise _ => Py.Run (Ret None) d [QuerySelector selector; InnerHtml]
        end
    | Ret None | Raise _ => Py.Run (Ret None) d [QuerySelector selector]
    end.
Proof.
  unfold probe. py_unfold. simpl.
  destruct (query_selector pg selector) as [[el|]|e]; simpl; try done.
  by destruct (inner_html el).
Qed.

(** A turn that does not leave the loop hands over to the next selector. *)
Lemma for_loop_next (pg : page) (selector : string) (rest : list string) trace d :
  probe pg selector d = Py.Run (Ret None) d trace →
  for_loop (selector :: rest) (probe pg) d
  = (let r := for_loop rest (probe pg) d in
     Py.Run (Py.result r) (Py.disk r) (trace ++ Py.events r)).
Proof.
  intros Hp. simpl. py_unfold. rewrite Hp.
  by destruct (for_loop rest (probe pg) d) as [[?|?] ? ?].
Qed.

(** The run after a redirect to the login page. *)
Lemma fetch_rejects (b : Browser) (li_at_cookie url : string) (pg : page) d :
  lands_on b li_at_cookie url pg →
  is_login_redirect (page_url pg) = true →
  get_authenticated_html b li_at_cookie url d
  = Py.Run (match close b with Ret _ => Ret None | Raise e => Raise e end) d
      (landing_events li_at_cookie url ++ [auth_error; BrowserClose; PlaywrightStop]).
Proof.
  intros (Hs & Hl & Hc & Ha & Hn & Hg) Hr. unfold li_at in *.
  unfold get_authenticated_html. rewrite Hs, async_with_entered.
  py_unfold. simpl. rewrite Hl. simpl. rewrite Hc. simpl. rewrite Ha. simpl.
  rewrite Hn. simpl. rewrite Hg. simpl. rewrite Hr. simpl.
  by destruct (close b).
Qed.

(** The run on a page that is not a login page. *)
Lemma fetch_harvests (b : Browser) (li_at_cookie url : string) (pg : page) d :
  lands_on b li_at_cookie url pg →
  is_login_redirect (page_url pg) = false →
  get_authenticated_html b li_at_cookie url d
  = (let r := harvest b pg d in
     Py.Run (Py.result r) (Py.disk r)
       (landing_events li_at_cookie url ++ Py.events r ++ [PlaywrightStop])).
Proof.
  intros (Hs & Hl & Hc & Ha & Hn & Hg) Hr. unfold li_at in *.
  unfold get_authenticated_html. rewrite Hs, async_with_entered.
  py_unfold. simpl. rewrite Hl. simpl. rewrite Hc. simpl. rewrite Ha. simpl.
  rewrite Hn. simpl. rewrite Hg. simpl. rewrite Hr.
  by destruct (harvest b pg d) as [[?|?] ? ?].
Qed.

(** The fetch never touches the file system. *)
Lemma fetch_keeps_disk (b : Browser) (li_at_cookie url : string) d :
  Py.disk (get_authenticated_html b li_at_cookie url d) = d.
Proof.
  assert (Hloop : ∀ pg sels d0, Py.disk (for_loop sels (probe pg) d0) = d0).
  { intros pg sels d0. induction sels as [|sel sels IH]; [done|].
    simpl. py_unfold. rewrite probe_run.
    destruct (query_selector pg sel) as [[el|]|e]; simpl;
      try destruct (inner_html el); simpl; try done;
      by destruct (for_loop sels (probe pg) d0) as [[?|?] ? ?]. }
  assert (Hl := λ pg d0, Hloop pg selectors_to_try d0). clear Hloop. revert Hl.
  fetch_walk b url loop; intros Hl; try done;
    match goal with
    | E : ?f (probe ?p) ?d0 = _ |- _ =>
        specialize (Hl p d0); rewrite E in Hl; simpl in Hl; by subst
    end.
Qed.

(** A page on which none of [sels] resolves sends the loop through all of
    them, an exception counting as a miss. *)
Lemma for_loop_all_miss (pg : page) (sels : list string) d :
  (∀ sel, sel ∈ sels → ¬ resolves pg sel) →
  for_loop sels (probe pg) d = Py.Run (Ret None) d (map QuerySelector sels).
Proof.
  induction sels as [|sel sels IH]; intros Hmiss; [done|].
  rewrite (for_loop_next pg sel sels [QuerySelector sel]).
  - rewrite IH; [done|]. intros s Hs. apply Hmiss. by right.
  - rewrite probe_run.
    destruct (query_selector pg sel) as [[el|]|e] eqn:Hq; try done.
    exfalso. apply (Hmiss sel); [by left|]. by exists el.
Qed.

(** C3.  Once the automation engine has started, every run of the fetch
    ends by leaving the [async with] scope, which stops the engine and with
    it the browser session: the stop is the last call of the run whether the
    fetch returns a fragment, returns the authentication-failure value, or
    raises from navigation, the settle wait or selector probing.  On the
    paths that return, [browser.close()] has been called as well. *)
Theorem fetch_tears_down_session (b : Browser) (li_at_cookie url : string) d :
  engine_start b = Ret tt →
  last (Py.events (get_authenticated_html b li_at_cookie url d)) = Some PlaywrightStop
  ∧ (∀ v, Py.result (get_authenticated_html b li_at_cookie url d) = Ret v →
          BrowserClose ∈ Py.events (get_authenticated_html b li_at_cookie url d)).
Proof.
  intros Hstart. split.
  - unfold get_authenticated_html. rewrite Hstart, async_with_entered.
    simpl. rewrite app_comm_cons. apply last_snoc.
  - intros v. fetch_walk b url loop; try done; intros _; set_solver.
Qed.

Lemma fetch_tears_down_session_witness :
  engine_start Double.stalled_browser = Ret tt
  ∧ Py.result (get_authenticated_html Double.stalled_browser "AQEDAT" "https://www.linkedin.com/in/someone/recent-activity/all/" ∅)
    = Raise (Exn PlaywrightTimeoutError "Timeout 60000ms exceeded.")
  ∧ last (Py.events (get_authenticated_html Double.stalled_browser "AQEDAT" "https://www.linkedin.com/in/someone/recent-activity/all/" ∅))
    = Some PlaywrightStop.
Proof.
  split; [reflexivity|]. split; [reflexivity|].
  apply (fetch_tears_down_session Double.stalled_browser). reflexivity.
Defined.

(** No call of the fetch belongs to the extraction stage. *)
Lemma fetch_is_not_extraction (b : Browser) (li_at_cookie url : string) d :
  invokes_orchestrator (Py.events (get_authenticated_html b li_at_cookie url d)) = false.
Proof.
  assert (Hloop : ∀ pg sels d0,
             invokes_orchestrator (Py.events (for_loop sels (probe pg) d0)) = false).
  { intros pg sels d0. induction sels as [|sel sels IH]; [done|].
    simpl. py_unfold. rewrite probe_run.
    destruct (query_selector pg sel) as [[el|]|e]; simpl;
      try destruct (inner_html el); simpl; try done;
      by destruct (for_loop sels (probe pg) d0) as [[?|?] ? ?]. }
  assert (Hl := λ pg d0, Hloop pg selectors_to_try d0). clear Hloop. revert Hl.
  fetch_walk b url loop; intros Hl; unfold invokes_orchestrator in *; simpl;
    rewrite ?existsb_app; simpl; try done;
    match goal with
    | |- context [existsb _ ?t] =>
        match goal with
        | E : ?f (probe ?p) ?d0 = _ |- _ =>
            specialize (Hl p d0); rewrite E in Hl; simpl in Hl; by rewrite Hl
        end
    end.
Qed.

(** [main_app] once the button is pressed with a cookie typed in. *)
Lemma main_app_started (b : Browser) (s : Services) (ui : Inputs) d :
  start_clicked ui = true →
  li_at_input ui ≠ "" →
  main_app b s ui d
  = (let r := Py.try_except is_Exception
                (html_content ← get_authenticated_html b (li_at_input ui) (url_input ui);
                 run_extraction s html_content)
                (λ e, Py.emit (st_exception e);;
                      Py.emit (status_update "An error occurred" "error" true)) d in
     Py.Run (Py.result r) (Py.disk r)
            (form_events ++ st_status "Initializing..." true :: Py.events r)).
Proof.
  intros Hc Hne. unfold main_app. rewrite Hc. simpl.
  destruct (String.eqb_spec (li_at_input ui) "") as [|_]; [done|]. simpl.
  set (body := Py.try_except _ _ _).
  py_unfold. simpl. by destruct (body d) as [[?|?] ? ?].
Qed.

(** C2.  When navigation with the given credential ends on a URL that
    contains "login" or "checkpoint", the fetch reports the authentication
    failure and returns [None] (unless closing the browser itself raises),
    having probed no selector and captured no page; and on that run
    [main_app] makes no call of the extraction stage. *)
Theorem login_redirect_is_auth_failure
    (b : Browser) (s : Services) (li_at_cookie url : string) (clicked : bool)
    (pg : page) d :
  lands_on b li_at_cookie url pg →
  is_login_redirect (page_url pg) = true →
  Py.result (get_authenticated_html b li_at_cookie url d)
  = match close b with Ret _ => Ret None | Raise e => Raise e end
  ∧ Py.events (get_authenticated_html b li_at_cookie url d)
    = landing_events li_at_cookie url ++ [auth_error; BrowserClose; PlaywrightStop]
  ∧ existsb probing_event (Py.events (get_authenticated_html b li_at_cookie url d)) = false
  ∧ invokes_orchestrator
      (Py.events (main_app b s
         {| li_at_input := li_at_cookie; url_input := url; start_clicked := clicked |} d))
    = false.
Proof.
  intros Hland Hredirect.
  rewrite (fetch_rejects b li_at_cookie url pg d Hland Hredirect). simpl.
  repeat split.
  destruct clicked; [|done].
  destruct (String.eqb_spec li_at_cookie "") as [->|Hne]; [done|].
  rewrite main_app_started by done. simpl.
  unfold Py.try_except. py_unfold. simpl.
  rewrite (fetch_rejects b li_at_cookie url pg d Hland Hredirect).
  by destruct (close b).
Qed.

Lemma login_redirect_is_auth_failure_witness :
  lands_on (Double.browser Double.login_page) "expired" "https://www.linkedin.com/in/someone/recent-activity/all/" Double.login_page
  ∧ is_login_redirect (page_url Double.login_page) = true
  ∧ Py.result (get_authenticated_html (Double.browser Double.login_page) "expired"
                 "https://www.linkedin.com/in/someone/recent-activity/all/" ∅)
    = Ret None
  ∧ invokes_orchestrator
      (Py.events (main_app (Double.browser Double.login_page)
         (Double.services Double.keys (Ret []))
         {| li_at_input := "expired";
            url_input := "https://www.linkedin.com/in/someone/recent-activity/all/";
            start_clicked := true |} ∅))
    = false.
Proof.
  assert (Hland : lands_on (Double.browser Double.login_page) "expired"
            "https://www.linkedin.com/in/someone/recent-activity/all/" Double.login_page)
    by (repeat split).
  assert (Hredirect : is_login_redirect (page_url Double.login_page) = true)
    by reflexivity.
  split; [exact Hland|]. split; [exact Hredirect|].
  destruct (login_redirect_is_auth_failure (Double.browser Double.login_page)
              (Double.services Double.keys (Ret [])) "expired"
              "https://www.linkedin.com/in/someone/recent-activity/all/" true
              Double.login_page ∅ Hland Hredirect) as (Hres & _ & _ & Hmain).
  split; [exact Hres | exact Hmain].
Defined.

(** C4, counterexample.  On a page whose feed container is present and
    empty, the first selector resolves and its inner markup is the empty
    string, yet the fetch returns the markup of the whole page: the test
    [if not feed_html] takes the empty string for "nothing found". *)
Lemma empty_container_returns_full_page :
  ¬ claim_first_match_as_stated.
Proof.
  intros Hclaim.
  specialize (Hclaim (Double.browser Double.empty_feed_page) "AQEDAT"
                "https://www.linkedin.com/in/someone/recent-activity/all/"
                Double.empty_feed_page
                "ul.display-flex.flex-wrap.list-style-none.justify-center"
                Double.empty_feed "" ∅).
  assert (Hrun : Py.result (get_authenticated_html
                   (Double.browser Double.empty_feed_page) "AQEDAT"
                   "https://www.linkedin.com/in/someone/recent-activity/all/" ∅)
                 = Ret (Some "<html><body>whole page</body></html>"))
    by reflexivity.
  rewrite Hrun in Hclaim.
  assert (Habs : Ret (Some "<html><body>whole page</body></html>")
                 = Ret (Some "")) by (apply Hclaim; repeat split).
  discriminate Habs.
Qed.

(** C4, as amended.  When the first candidate selector resolves to a
    present element whose inner markup is not empty, the fetch returns
    exactly that markup: it probes no later selector and does not capture
    the page.  An exception raised while a selector is probed, by the query
    or by reading the inner markup, counts as that selector not resolving:
    the loop goes on with the next candidate. *)
Theorem first_match_returns_inner_markup
    (b : Browser) (li_at_cookie url : string) (pg : page) (first : string)
    (el : element) (html : string) d :
  lands_on b li_at_cookie url pg →
  is_login_redirect (page_url pg) = false →
  close b = Ret tt →
  head selectors_to_try = Some first →
  query_selector pg first = Ret (Some el) →
  inner_html el = Ret html →
  html ≠ "" →
  get_authenticated_html b li_at_cookie url d
  = Py.Run (Ret (Some html)) d
      (landing_events li_at_cookie url
       ++ [QuerySelector first; InnerHtml; found first; BrowserClose; PlaywrightStop])
  ∧ (∀ (pg' : page) (sel : string) (rest : list string) (e : exn) d',
        query_selector pg' sel = Raise e
        ∨ (∃ el', query_selector pg' sel = Ret (Some el') ∧ inner_html el' = Raise e) →
        Py.result (probe pg' sel d') = Ret None
        ∧ Py.result (for_loop (sel :: rest) (probe pg') d')
          = Py.result (for_loop rest (probe pg') d')
        ∧ Py.events (for_loop (sel :: rest) (probe pg') d')
          = Py.events (probe pg' sel d') ++ Py.events (for_loop rest (probe pg') d')).
Proof.
  intros Hland Hredirect Hclose Hfirst Hq Hinner Hne. split.
  - rewrite (fetch_harvests b li_at_cookie url pg d Hland Hredirect).
    injection Hfirst as <-.
    unfold harvest, selectors_to_try. cbn [for_loop].
    py_unfold. rewrite probe_run, Hq, Hinner. simpl.
    destruct (String.eqb_spec html "") as [|_]; [done|]. simpl.
    by rewrite Hclose.
  - intros pg' sel rest e d' Hraise.
    assert (Hp : ∃ trace, probe pg' sel d' = Py.Run (Ret None) d' trace).
    { rewrite probe_run.
      destruct Hraise as [->|(el' & -> & ->)]; eauto. }
    destruct Hp as [trace Hp].
    rewrite (for_loop_next pg' sel rest trace d' Hp), Hp. by simpl.
Qed.

Lemma first_match_returns_inner_markup_witness :
  lands_on (Double.browser Double.feed_page) "AQEDAT"
    "https://www.linkedin.com/in/someone/recent-activity/all/" Double.feed_page
  ∧ inner_html Double.feed = Ret "<li>post</li>"
  ∧ Py.result (get_authenticated_html (Double.browser Double.feed_page) "AQEDAT"
                 "https://www.linkedin.com/in/someone/recent-activity/all/" ∅)
    = Ret (Some "<li>post</li>").
Proof.
  assert (Hland : lands_on (Double.browser Double.feed_page) "AQEDAT"
            "https://www.linkedin.com/in/someone/recent-activity/all/" Double.feed_page)
    by (repeat split).
  split; [exact Hland|]. split; [reflexivity|].
  assert (Hne : "<li>post</li>" ≠ "") by discriminate.
  rewrite (proj1 (first_match_returns_inner_markup (Double.browser Double.feed_page)
              "AQEDAT" "https://www.linkedin.com/in/someone/recent-activity/all/"
              Double.feed_page
              "ul.display-flex.flex-wrap.list-style-none.justify-center"
              Double.feed "<li>post</li>" ∅ Hland eq_refl eq_refl eq_refl eq_refl
              eq_refl Hne)).
  reflexivity.
Defined.

(** C5.  On a page where no candidate selector resolves to a present
    element, the fetch tries every candidate, warns, and returns the markup
    of the whole page: a value, not an exception. *)
Theorem no_match_returns_full_page
    (b : Browser) (li_at_cookie url : string) (pg : page) (whole : string) d :
  lands_on b li_at_cookie url pg →
  is_login_redirect (page_url pg) = false →
  (∀ sel, sel ∈ selectors_to_try → ¬ resolves pg sel) →
  content pg = Ret whole →
  close b = Ret tt →
  get_authenticated_html b li_at_cookie url d
  = Py.Run (Ret (Some whole)) d
      (landing_events li_at_cookie url
       ++ map QuerySelector selectors_to_try
       ++ [fallback_warning; PageContent; BrowserClose; PlaywrightStop]).
Proof.
  intros Hland Hredirect Hmiss Hcontent Hclose.
  rewrite (fetch_harvests b li_at_cookie url pg d Hland Hredirect).
  unfold harvest. py_unfold.
  rewrite (for_loop_all_miss pg selectors_to_try d Hmiss). simpl.
  by rewrite Hcontent, Hclose.
Qed.

Lemma no_match_returns_full_page_witness :
  lands_on (Double.browser Double.bare_page) "AQEDAT"
    "https://www.linkedin.com/in/someone/recent-activity/all/" Double.bare_page
  ∧ (∀ sel, sel ∈ selectors_to_try → ¬ resolves Double.bare_page sel)
  ∧ Py.result (get_authenticated_html (Double.browser Double.bare_page) "AQEDAT"
                 "https://www.linkedin.com/in/someone/recent-activity/all/" ∅)
    = Ret (Some "<html><body>whole page</body></html>").
Proof.
  assert (Hland : lands_on (Double.browser Double.bare_page) "AQEDAT"
            "https://www.linkedin.com/in/someone/recent-activity/all/" Double.bare_page)
    by (repeat split).
  assert (Hmiss : ∀ sel, sel ∈ selectors_to_try → ¬ resolves Double.bare_page sel).
  { intros sel _ [el Hel]. discriminate Hel. }
  split; [exact Hland|]. split; [exact Hmiss|].
  rewrite (no_match_returns_full_page (Double.browser Double.bare_page) "AQEDAT"
             "https://www.linkedin.com/in/someone/recent-activity/all/"
             Double.bare_page "<html><body>whole page</body></html>" ∅
             Hland eq_refl Hmiss eq_refl eq_refl).
  reflexivity.
Defined.

(** ** The extraction orchestrator *)

(** The clean-up always completes, and leaves the path absent. *)
Lemma cleanup_run (s : Services) (path : string) d :
  cleanup s path d = Py.Run (Ret tt) (after_cleanup s path d) [Unlink path].
Proof.
  unfold cleanup, os_unlink, Py.try_except, after_cleanup.
  destruct (d !! path) eqn:Hd; simpl.
  - by destruct (unlink_fault s path) as [[]|].
  - by rewrite (delete_id _ _ Hd).
Qed.

(** When the system does not refuse, the clean-up removes the path. *)
Lemma after_cleanup_unrefused (s : Services) (path : string) d :
  unlink_fault s path = None →
  after_cleanup s path d = delete path d.
Proof. intros Hfault. unfold after_cleanup. rewrite Hfault. by destruct (d !! path). Qed.

(** A [finally] clause that runs the clean-up keeps the outcome of the
    [try] block. *)
Lemma try_finally_cleanup {A} (m : Py A) (s : Services) (path : string) d :
  Py.try_finally m (cleanup s path) d
  = Py.Run (Py.result (m d)) (after_cleanup s path (Py.disk (m d)))
           (Py.events (m d) ++ [Unlink path]).
Proof.
  unfold Py.try_finally. destruct (m d) as [r d1 t1]. by rewrite cleanup_run.
Qed.

(** The whole of [extract_with_crawl4ai] in terms of its [try] block. *)
Lemma extract_run (s : Services) (html_content : string) d :
  temp_file_written s html_content →
  extract_with_crawl4ai s html_content d
  = (let r := extract_body s (temp_name s) (disk_with_shell s html_content d) in
     Py.Run (Py.result r) (after_cleanup s (temp_name s) (Py.disk r))
       (TempFileCreate (temp_name s)
        :: FileWrite (temp_name s) (shell html_content)
        :: Py.events r ++ [Unlink (temp_name s)])).
Proof.
  intros [Hcreate Hwrite]. unfold shell in Hwrite.
  unfold extract_with_crawl4ai, write_temp_file.
  unfold mbind, Py_bind, Py.bind. rewrite Hcreate, Hwrite, try_finally_cleanup.
  by destruct (extract_body _ _ _).
Qed.

(** The extraction by cases on the creation and the write of the file. *)
Lemma extract_run_cases (s : Services) (html_content : string) d :
  extract_with_crawl4ai s html_content d
  = match temp_create s with
    | Raise e => Py.Run (Raise e) d [TempFileCreate (temp_name s)]
    | Ret _ =>
        match temp_write s (shell html_content) with
        | Raise e =>
            Py.Run (Raise e) (<[temp_name s := ""]> d)
              [TempFileCreate (temp_name s);
               FileWrite (temp_name s) (shell html_content)]
        | Ret _ =>
            let r := extract_body s (temp_name s)
                       (disk_with_shell s html_content d) in
            Py.Run (Py.result r) (after_cleanup s (temp_name s) (Py.disk r))
              (TempFileCreate (temp_name s)
               :: FileWrite (temp_name s) (shell html_content)
               :: Py.events r ++ [Unlink (temp_name s)])
        end
    end.
Proof.
  unfold extract_with_crawl4ai, write_temp_file, shell.
  unfold mbind, Py_bind, Py.bind.
  destruct (temp_create s); [|done].
  destruct (temp_write s _); [|done].
  rewrite try_finally_cleanup. by destruct (extract_body _ _ _).
Qed.

(** One turn of the result loop, by cases on the result object. *)
Lemma handle_result_run (s : Services) (r : CrawlResult) d :
  handle_result s r d
  = if success r then
      match extracted_content r with
      | None =>
          Py.Run (Raise (Exn TypeError
            "the JSON object must be str, bytes or bytearray, not NoneType")) d []
      | Some raw =>
          match json_loads s raw with
          | Some data =>
              Py.Run (Ret (Some data)) d [st_success "✅ Crawl4AI extraction successful!"]
          | None =>
              Py.Run (Ret (Some (JArr []))) d
                [ st_error "❌ Failed to parse Crawl4AI JSON output.";
                  st_json (JObj [("raw_content", JStr raw)]) ]
          end
      end
    else Py.Run (Ret (Some (JArr []))) d [st_error "❌ Crawl4AI extraction failed."].
Proof.
  unfold handle_result, py_json_loads. py_unfold.
  destruct (success r); [|done].
  destruct (extracted_content r) as [raw|]; [|done].
  by destruct (json_loads s raw).
Qed.

(** Every turn of the result loop leaves the function: the loop never gets
    past its first item. *)
Lemma result_loop_first (s : Services) (r : CrawlResult) (rest : list CrawlResult) d :
  for_loop (r :: rest) (handle_result s) d = for_loop [r] (handle_result s) d.
Proof.
  simpl. py_unfold. rewrite handle_result_run.
  destruct (success r); [|done].
  destruct (extracted_content r) as [raw|]; [|done].
  by destruct (json_loads s raw).
Qed.

(** The [try] block when the secret is there, the crawler starts and the
    backend hands back at least one result object. *)
Lemma extract_body_answered
    (s : Services) (path key : string) (r : CrawlResult) (rest : list CrawlResult) d :
  secrets s !! "GROQ_API_KEY" = Some key →
  crawler_start s = Ret tt →
  (arun s d ("file://" +:+ path) (llm_strategy key)).1 = Ret (r :: rest) →
  extract_body s path d
  = (let h := handle_result s r
                (arun s d ("file://" +:+ path) (llm_strategy key)).2 in
     Py.Run (match Py.result h with
             | Ret (Some v) => Ret v
             | Ret None => Ret JNull
             | Raise e => Raise e
             end)
            (Py.disk h)
            ([ SecretsGet "GROQ_API_KEY";
               st_status "🤖 Running Crawl4AI extraction..." true;
               CrawlerStart; CrawlerRun ("file://" +:+ path) (llm_strategy key) ]
             ++ Py.events h ++ [CrawlerClose])).
Proof.
  intros Hkey Hstart Hanswer.
  unfold extract_body, secrets_get, abspath. rewrite Hkey, Hstart.
  unfold call at 1. py_unfold. cbn -[for_loop String.append llm_strategy].
  unfold crawler_arun.
  destruct (arun s d ("file://" +:+ path) (llm_strategy key)) as [answer d'].
  simpl in Hanswer. subst answer. cbn -[for_loop String.append llm_strategy].
  rewrite result_loop_first. cbn [for_loop]. py_unfold.
  rewrite handle_result_run.
  destruct (success r); [|done].
  destruct (extracted_content r) as [raw|]; [|done].
  by destruct (json_loads s raw).
Qed.

(** The [try] block when the secret is missing. *)
Lemma extract_body_no_secret (s : Services) (path : string) d :
  secrets s !! "GROQ_API_KEY" = None →
  extract_body s path d
  = Py.Run (Raise (Exn KeyError "GROQ_API_KEY")) d [SecretsGet "GROQ_API_KEY"].
Proof. intros Hkey. unfold extract_body, secrets_get. by rewrite Hkey. Qed.

(** The [try] block when the backend call raises. *)
Lemma extract_body_backend_raises (s : Services) (path key : string) (e : exn) d :
  secrets s !! "GROQ_API_KEY" = Some key →
  crawler_start s = Ret tt →
  (arun s d ("file://" +:+ path) (llm_strategy key)).1 = Raise e →
  Py.result (extract_body s path d) = Raise e.
Proof.
  intros Hkey Hstart Hanswer.
  unfold extract_body, secrets_get, abspath. rewrite Hkey, Hstart.
  unfold call at 1. py_unfold. cbn -[for_loop String.append llm_strategy].
  unfold crawler_arun.
  destruct (arun s d ("file://" +:+ path) (llm_strategy key)) as [answer d'].
  simpl in Hanswer. by subst answer.
Qed.

(** [main_app] handles every exception of the run itself. *)
Lemma main_app_returns (b : Browser) (s : Services) (ui : Inputs) d :
  Py.result (main_app b s ui d) = Ret tt.
Proof.
  destruct (start_clicked ui) eqn:Hc.
  - destruct (String.eqb_spec (li_at_input ui) "") as [He|Hne].
    + unfold main_app. by rewrite Hc, He.
    + rewrite main_app_started by done. simpl.
      unfold Py.try_except, is_Exception.
      match goal with
      | |- context [match ?m with _ => _ end] => by destruct m as [[[]|e] d1 t1]
      end.
  - unfold main_app. by rewrite Hc.
Qed.

(** C1, counterexample.  With no [GROQ_API_KEY] in the secrets store the
    lookup raises [KeyError]; the function has a [finally] clause and no
    [except] clause, so the exception reaches the caller. *)
Lemma extract_raises_without_secret : ¬ claim_never_raises_as_stated.
Proof.
  intros Hclaim.
  destruct (Hclaim (Double.services ∅ (Ret [])) "<li>post</li>" ∅) as [v Hv].
  assert (Hrun : Py.result (extract_with_crawl4ai (Double.services ∅ (Ret []))
                              "<li>post</li>" ∅)
                 = Raise (Exn KeyError "GROQ_API_KEY")) by reflexivity.
  rewrite Hrun in Hv. discriminate Hv.
Qed.

(** C1, as amended.  The extraction returns the empty list when the first
    result object of the backend reports failure, and when it reports
    success with content that does not parse as JSON.  It catches no
    exception of its own: a missing secret or an exception of the backend
    call propagates to the caller, with the clean-up of the temporary file
    run first (the deletion is the last call, and the file is gone unless
    the system refuses to unlink it), and the caller, [main_app], handles it
    and returns.  Stated for runs on which the temporary file is created and
    written. *)
Theorem extract_degrades_or_propagates (s : Services) (html_content : string) d :
  temp_file_written s html_content →
  (∀ key r rest,
      secrets s !! "GROQ_API_KEY" = Some key →
      crawler_start s = Ret tt →
      backend_answer s html_content key d = Ret (r :: rest) →
      success r = false
      ∨ (∃ raw, success r = true ∧ extracted_content r = Some raw
                ∧ json_loads s raw = None) →
      Py.result (extract_with_crawl4ai s html_content d) = Ret (JArr []))
  ∧ (secrets s !! "GROQ_API_KEY" = None →
      Py.result (extract_with_crawl4ai s html_content d)
      = Raise (Exn KeyError "GROQ_API_KEY"))
  ∧ (∀ key e,
      secrets s !! "GROQ_API_KEY" = Some key →
      crawler_start s = Ret tt →
      backend_answer s html_content key d = Raise e →
      Py.result (extract_with_crawl4ai s html_content d) = Raise e)
  ∧ last (Py.events (extract_with_crawl4ai s html_content d))
    = Some (Unlink (temp_name s))
  ∧ (unlink_fault s (temp_name s) = None →
      Py.disk (extract_with_crawl4ai s html_content d) !! temp_name s = None)
  ∧ (∀ b ui d0, Py.result (main_app b s ui d0) = Ret tt).
Proof.
  intros Hwritten. rewrite (extract_run s html_content d Hwritten).
  cbn [Py.result Py.disk Py.events]. repeat split.
  - intros key r rest Hkey Hstart Hanswer Hfail.
    rewrite (extract_body_answered s _ key r rest _ Hkey Hstart Hanswer).
    cbn [Py.result]. rewrite handle_result_run.
    destruct Hfail as [->|(raw & -> & -> & ->)]; done.
  - intros Hkey. by rewrite (extract_body_no_secret s _ _ Hkey).
  - intros key e Hkey Hstart Hanswer.
    apply (extract_body_backend_raises s _ key e _ Hkey Hstart Hanswer).
  - rewrite !app_comm_cons. apply last_snoc.
  - intros Hfault. rewrite (after_cleanup_unrefused _ _ _ Hfault).
    apply lookup_delete_eq.
  - intros b ui d0. apply main_app_returns.
Qed.

Lemma extract_degrades_or_propagates_witness :
  temp_file_written (Double.services ∅ (Ret [])) "<li>post</li>"
  ∧ secrets (Double.services ∅ (Ret [])) !! "GROQ_API_KEY" = None
  ∧ Py.result (extract_with_crawl4ai (Double.services ∅ (Ret [])) "<li>post</li>" ∅)
    = Raise (Exn KeyError "GROQ_API_KEY").
Proof.
  assert (Hwritten : temp_file_written (Double.services ∅ (Ret [])) "<li>post</li>")
    by (split; reflexivity).
  split; [exact Hwritten|]. split; [reflexivity|].
  apply (proj1 (proj2 (extract_degrades_or_propagates
                         (Double.services ∅ (Ret [])) "<li>post</li>" ∅ Hwritten))).
  reflexivity.
Defined.

(** C6, counterexample.  On a system that refuses to unlink the temporary
    file, [os.unlink] raises [PermissionError], the [except OSError: pass]
    of the clean-up swallows it, and the extraction returns with the file
    still on the disk. *)
Lemma refused_unlink_leaves_temp_file : ¬ claim_temp_file_gone_as_stated.
Proof.
  intros Hclaim.
  specialize (Hclaim Sample.locked "<li>post</li>" ∅).
  assert (Hrun : Py.disk (extract_with_crawl4ai Sample.locked "<li>post</li>" ∅)
                 !! temp_name Sample.locked
                 = Some "<html><body><li>post</li></body></html>")
    by reflexivity.
  rewrite Hrun in Hclaim. discriminate Hclaim.
Qed.

(** C6, as amended.  On every run that has created and written the
    temporary file, whether the [try] block returns or raises, the last call
    of the extraction is the deletion of that file, and the file is not on
    the disk afterwards unless the system refuses to unlink it.  The
    clean-up itself always completes: on a disk where the file is already
    gone it changes nothing and does not raise, so running it twice is
    harmless; a refused deletion, whatever [OSError] it raises, is swallowed
    and leaves the file in place; and the outcome of the extraction is the
    outcome of its [try] block, never an error of the deletion. *)
Theorem temp_file_is_unlinked_unless_refused
    (s : Services) (html_content : string) d :
  temp_file_written s html_content →
  last (Py.events (extract_with_crawl4ai s html_content d))
  = Some (Unlink (temp_name s))
  ∧ (unlink_fault s (temp_name s) = None →
     Py.disk (extract_with_crawl4ai s html_content d) !! temp_name s = None)
  ∧ Py.result (extract_with_crawl4ai s html_content d)
    = Py.result (extract_body s (temp_name s) (disk_with_shell s html_content d))
  ∧ (∀ d0, Py.result (cleanup s (temp_name s) d0) = Ret tt)
  ∧ (∀ d0, d0 !! temp_name s = None →
           cleanup s (temp_name s) d0 = Py.Run (Ret tt) d0 [Unlink (temp_name s)])
  ∧ (∀ d0 fault text,
       unlink_fault s (temp_name s) = Some fault →
       d0 !! temp_name s = Some text →
       os_unlink s (temp_name s) d0
       = Py.Run (Raise (os_fault_exn fault (temp_name s))) d0 [Unlink (temp_name s)]
       ∧ cleanup s (temp_name s) d0 = Py.Run (Ret tt) d0 [Unlink (temp_name s)])
  ∧ (∀ d0, Py.result ((cleanup s (temp_name s);; cleanup s (temp_name s)) d0) = Ret tt).
Proof.
  intros Hwritten. rewrite (extract_run s html_content d Hwritten).
  cbn [Py.result Py.disk Py.events].
  split; [|split; [|split; [|split; [|split; [|split]]]]]; try done.
  - rewrite !app_comm_cons. apply last_snoc.
  - intros Hfault. rewrite (after_cleanup_unrefused _ _ _ Hfault).
    apply lookup_delete_eq.
  - intros d0. by rewrite cleanup_run.
  - intros d0 Hgone. rewrite cleanup_run. unfold after_cleanup.
    by rewrite Hgone, (delete_id _ _ Hgone).
  - intros d0 fault text Hfault Hthere. split.
    + unfold os_unlink. by rewrite Hthere, Hfault.
    + rewrite cleanup_run. unfold after_cleanup. by rewrite Hthere, Hfault.
  - intros d0. unfold mbind, Py_bind, Py.bind. by rewrite !cleanup_run.
Qed.

Lemma temp_file_is_unlinked_unless_refused_witness :
  temp_file_written Sample.locked "<li>post</li>"
  ∧ Py.result (extract_with_crawl4ai Sample.locked "<li>post</li>" ∅) = Ret (JArr [])
  ∧ last (Py.events (extract_with_crawl4ai Sample.locked "<li>post</li>" ∅))
    = Some (Unlink "/tmp/tmpab12cd34.html").
Proof.
  assert (Hwritten : temp_file_written Sample.locked "<li>post</li>")
    by (split; reflexivity).
  split; [exact Hwritten|]. split; [reflexivity|].
  apply (proj1 (temp_file_is_unlinked_unless_refused Sample.locked "<li>post</li>" ∅
                  Hwritten)).
Defined.

(** C7.  When the first result object reports success and its content is a
    string that does not parse as JSON, the extraction returns the empty
    list, having shown the raw content under [raw_content]; it does not
    raise. *)
Theorem unparsable_content_gives_empty
    (s : Services) (html_content key raw : string) (r : CrawlResult)
    (rest : list CrawlResult) d :
  temp_file_written s html_content →
  secrets s !! "GROQ_API_KEY" = Some key →
  crawler_start s = Ret tt →
  backend_answer s html_content key d = Ret (r :: rest) →
  success r = true →
  extracted_content r = Some raw →
  json_loads s raw = None →
  Py.result (extract_with_crawl4ai s html_content d) = Ret (JArr [])
  ∧ Py.events (extract_with_crawl4ai s html_content d)
    = [ TempFileCreate (temp_name s); FileWrite (temp_name s) (shell html_content);
        SecretsGet "GROQ_API_KEY";
        st_status "🤖 Running Crawl4AI extraction..." true;
        CrawlerStart;
        CrawlerRun ("file://" +:+ temp_name s) (llm_strategy key);
        st_error "❌ Failed to parse Crawl4AI JSON output.";
        st_json (JObj [("raw_content", JStr raw)]);
        CrawlerClose; Unlink (temp_name s) ].
Proof.
  intros Hwritten Hkey Hstart Hanswer Hsuccess Hcontent Hparse.
  rewrite (extract_run s html_content d Hwritten).
  rewrite (extract_body_answered s _ key r rest _ Hkey Hstart Hanswer).
  cbn [Py.result Py.events]. rewrite handle_result_run.
  by rewrite Hsuccess, Hcontent, Hparse.
Qed.

Lemma unparsable_content_gives_empty_witness :
  json_loads (Double.services Double.keys
                (Ret [{| success := true; extracted_content := Some "not json" |}]))
             "not json" = None
  ∧ Py.result (extract_with_crawl4ai
                 (Double.services Double.keys
                    (Ret [{| success := true; extracted_content := Some "not json" |}]))
                 "<li>post</li>" ∅)
    = Ret (JArr []).
Proof.
  split; [reflexivity|].
  apply (unparsable_content_gives_empty
           (Double.services Double.keys
              (Ret [{| success := true; extracted_content := Some "not json" |}]))
           "<li>post</li>" "gsk_test" "not json"
           {| success := true; extracted_content := Some "not json" |} [] ∅);
    first [reflexivity | split; reflexivity].
Defined.

(** C8.  When the first result object reports failure, the extraction
    reports it and returns the empty list. *)
Theorem backend_failure_gives_empty
    (s : Services) (html_content key : string) (r : CrawlResult)
    (rest : list CrawlResult) d :
  temp_file_written s html_content →
  secrets s !! "GROQ_API_KEY" = Some key →
  crawler_start s = Ret tt →
  backend_answer s html_content key d = Ret (r :: rest) →
  success r = false →
  Py.result (extract_with_crawl4ai s html_content d) = Ret (JArr [])
  ∧ Py.events (extract_with_crawl4ai s html_content d)
    = [ TempFileCreate (temp_name s); FileWrite (temp_name s) (shell html_content);
        SecretsGet "GROQ_API_KEY";
        st_status "🤖 Running Crawl4AI extraction..." true;
        CrawlerStart;
        CrawlerRun ("file://" +:+ temp_name s) (llm_strategy key);
        st_error "❌ Crawl4AI extraction failed.";
        CrawlerClose; Unlink (temp_name s) ].
Proof.
  intros Hwritten Hkey Hstart Hanswer Hsuccess.
  rewrite (extract_run s html_content d Hwritten).
  rewrite (extract_body_answered s _ key r rest _ Hkey Hstart Hanswer).
  cbn [Py.result Py.events]. rewrite handle_result_run.
  by rewrite Hsuccess.
Qed.

Lemma backend_failure_gives_empty_witness :
  success {| success := false; extracted_content := None |} = false
  ∧ Py.result (extract_with_crawl4ai
                 (Double.services Double.keys
                    (Ret [{| success := false; extracted_content := None |}]))
                 "<li>post</li>" ∅)
    = Ret (JArr []).
Proof.
  split; [reflexivity|].
  apply (backend_failure_gives_empty
           (Double.services Double.keys
              (Ret [{| success := false; extracted_content := None |}]))
           "<li>post</li>" "gsk_test"
           {| success := false; extracted_content := None |} [] ∅);
    first [reflexivity | split; reflexivity].
Defined.

(** C9.  Only the first result object of the backend is consulted: a
    response with further result objects runs exactly as the response cut
    down to its first object, which is made of the success flag and the
    extracted content. *)
Theorem only_first_result_is_consulted
    (s : Services) (html_content : string) (r r' : CrawlResult)
    (rest : list CrawlResult) d :
  extract_with_crawl4ai (with_answer s (Ret (r :: r' :: rest))) html_content d
  = extract_with_crawl4ai (with_answer s (Ret [r])) html_content d.
Proof.
  rewrite !extract_run_cases. cbn [temp_name temp_create temp_write with_answer].
  assert (Hbody : ∀ d0,
    extract_body (with_answer s (Ret (r :: r' :: rest))) (temp_name s) d0
    = extract_body (with_answer s (Ret [r])) (temp_name s) d0).
  { intros d0. unfold extract_body, secrets_get, crawler_arun, with_answer.
    py_unfold. cbn -[for_loop String.append llm_strategy].
    destruct (secrets s !! "GROQ_API_KEY") as [key|];
      cbn -[for_loop String.append llm_strategy]; [|done].
    destruct (crawler_start s); cbn -[for_loop String.append llm_strategy]; [|done].
    by rewrite (result_loop_first _ r (r' :: rest)). }
  unfold disk_with_shell. cbn [temp_name with_answer]. by rewrite Hbody.
Qed.

(** The extraction begins by creating the temporary file, whatever comes
    of it. *)
Lemma extract_starts (s : Services) (html_content : string) d :
  ∃ trace, Py.events (extract_with_crawl4ai s html_content d)
           = TempFileCreate (temp_name s) :: trace.
Proof.
  rewrite extract_run_cases.
  destruct (temp_create s); [|by eexists].
  destruct (temp_write s _); by eexists.
Qed.

(** ** The pipeline boundary *)

(** On a fragment that is not empty the extraction block starts by creating
    the temporary file. *)
Lemma run_extraction_starts (s : Services) (html : string) d :
  html ≠ "" →
  ∃ trace, Py.events (run_extraction s (Some html) d)
           = TempFileCreate (temp_name s) :: trace.
Proof.
  intros Hne. unfold run_extraction. simpl.
  destruct (String.eqb_spec html "") as [|_]; [done|]. simpl.
  unfold mbind at 1. unfold Py_bind, Py.bind.
  destruct (extract_starts s html d) as [trace Htrace].
  destruct (extract_with_crawl4ai s html d) as [[v|e] d1 t1];
    cbn [Py.events] in Htrace; subst t1; [|by eexists].
  match goal with
  | |- context [match ?k with Py.Run _ _ _ => _ end] => destruct k
  end.
  by eexists.
Qed.

(** C10.  Once the button is pressed with a cookie typed in and the fetch
    has returned, [main_app] makes calls of the extraction stage exactly
    when the returned fragment is truthy: on [None], the value of an
    authentication failure, and on the empty string alike the extraction is
    skipped. *)
Theorem extraction_runs_iff_fragment_truthy
    (b : Browser) (s : Services) (ui : Inputs) (fragment : option string) d :
  start_clicked ui = true →
  li_at_input ui ≠ "" →
  Py.result (get_authenticated_html b (li_at_input ui) (url_input ui) d) = Ret fragment →
  invokes_orchestrator (Py.events (main_app b s ui d)) = truthy_html fragment
  ∧ (fragment = None ∨ fragment = Some "" →
     invokes_orchestrator (Py.events (main_app b s ui d)) = false).
Proof.
  intros Hclick Hcookie Hfetch.
  assert (Hiff : invokes_orchestrator (Py.events (main_app b s ui d))
                 = truthy_html fragment).
  { rewrite main_app_started by done. cbn [Py.events].
    unfold invokes_orchestrator. rewrite existsb_app. simpl.
    unfold Py.try_except, is_Exception.
    unfold mbind at 1. unfold Py_bind, Py.bind.
    pose proof (fetch_is_not_extraction b (li_at_input ui) (url_input ui) d) as Hquiet.
    unfold invokes_orchestrator in Hquiet.
    destruct (get_authenticated_html b (li_at_input ui) (url_input ui) d)
      as [res d1 t1]. simpl in Hfetch, Hquiet. subst res.
    destruct fragment as [html|]; [|simpl; by rewrite app_nil_r].
    destruct (String.eqb_spec html "") as [->|Hne].
    { simpl. by rewrite app_nil_r. }
    destruct (run_extraction_starts s html d1 Hne) as [trace Htrace].
    assert (Htruthy : truthy_html (Some html) = true).
    { simpl. by destruct (String.eqb_spec html ""). }
    rewrite Htruthy.
    destruct (run_extraction s (Some html) d1) as [[[]|e] d2 t2];
      simpl in Htrace; subst t2; simpl;
      rewrite ?existsb_app; simpl; by rewrite orb_true_r. }
  split; [exact Hiff|].
  intros [->| ->]; by rewrite Hiff.
Qed.

Lemma extraction_runs_iff_fragment_truthy_witness :
  Py.result (get_authenticated_html (Double.browser Double.feed_page) "AQEDAT"
               "https://www.linkedin.com/in/someone/recent-activity/all/" ∅)
  = Ret (Some "<li>post</li>")
  ∧ invokes_orchestrator
      (Py.events (main_app (Double.browser Double.feed_page)
         (Double.services Double.keys (Ret []))
         {| li_at_input := "AQEDAT";
            url_input := "https://www.linkedin.com/in/someone/recent-activity/all/";
            start_clicked := true |} ∅))
    = true.
Proof.
  split; [reflexivity|].
  assert (Hcookie : "AQEDAT" ≠ "") by discriminate.
  apply (proj1 (extraction_runs_iff_fragment_truthy
                  (Double.browser Double.feed_page)
                  (Double.services Double.keys (Ret []))
                  {| li_at_input := "AQEDAT";
                     url_input := "https://www.linkedin.com/in/someone/recent-activity/all/";
                     start_clicked := true |}
                  (Some "<li>post</li>") ∅ eq_refl Hcookie eq_refl)).
Defined.

(** ** The model on sample runs *)

(** A backend response without result objects: the loop body never runs,
    the function ends without a [return], and the caller gets [None]. *)
Example empty_response_returns_none :
  Py.result (extract_with_crawl4ai (Double.services Double.keys (Ret []))
               "<li>post</li>" ∅)
  = Ret JNull.
Proof. reflexivity. Qed.

(** A successful result whose content parses is handed back as decoded. *)
Example parsed_content_is_returned :
  Py.result (extract_with_crawl4ai
               (Double.services Double.keys
                  (Ret [{| success := true; extracted_content := Some "[{}]" |}]))
               "<li>post</li>" ∅)
  = Ret (JArr [JObj []]).
Proof. reflexivity. Qed.

(** A navigation that times out: no [browser.close()], the scope exit
    alone ends the session, and [main_app] reports the exception. *)
Example timeout_is_reported_by_main_app :
  Py.events (main_app Double.stalled_browser (Double.services Double.keys (Ret []))
               {| li_at_input := "AQEDAT"; url_input := "https://example.org/";
                  start_clicked := true |} ∅)
  = form_events
    ++ [ st_status "Initializing..." true;
         PlaywrightStart; Launch true; NewContext; AddCookies (li_at "AQEDAT");
         NewPage; st_status "🌐 Loading LinkedIn with Playwright..." true;
         Goto "https://example.org/" "networkidle" 60000; PlaywrightStop;
         st_exception (Exn PlaywrightTimeoutError "Timeout 60000ms exceeded.");
         status_update "An error occurred" "error" true ].
Proof. reflexivity. Qed.

(** The substring test behind the redirect check. *)
Example checkpoint_url_is_a_redirect :
  is_login_redirect "https://www.linkedin.com/checkpoint/challenge/AgE" = true
  ∧ is_login_redirect "https://www.linkedin.com/in/someone/recent-activity/all/" = false.
Proof. split; reflexivity. Qed.

(** ** Further properties: the redirect test *)

Lemma append_cons (c : ascii) (text rest : string) :
  String c text +:+ rest = String c (text +:+ rest).
Proof. reflexivity. Qed.

Lemma prefix_true_iff (needle hay : string) :
  String.prefix needle hay = true ↔ ∃ post, hay = needle +:+ post.
Proof.
  revert hay. induction needle as [|c needle IH]; intros [|c' hay]; simpl.
  - split; [by exists ""|done].
  - split; [by exists (String c' hay)|done].
  - split; [done|]. by intros [post Hpost].
  - destruct (Ascii.ascii_dec c c') as [->|Hne].
    + rewrite IH.
      split; intros [post Hpost]; exists post; rewrite append_cons in *; congruence.
    + split; [done|]. intros [post Hpost]. rewrite append_cons in Hpost. congruence.
Qed.

(** [str_contains] is the substring test of Python's [in]: it holds exactly
    when the hay stack splits around an occurrence of the needle. *)
Lemma str_contains_split (needle hay : string) :
  str_contains needle hay = true ↔ ∃ pre post, hay = pre +:+ needle +:+ post.
Proof.
  split.
  - induction hay as [|c hay IH]; cbn [str_contains]; rewrite orb_true_iff.
    + intros [Hp|]; [|done]. apply prefix_true_iff in Hp as [post Hp].
      by exists "", post.
    + intros [Hp|Hrest].
      * apply prefix_true_iff in Hp as [post Hp]. by exists "", post.
      * destruct (IH Hrest) as (pre & post & ->). by exists (String c pre), post.
  - intros (pre & post & ->). induction pre as [|c pre IH].
    + assert (Hp : String.prefix needle (needle +:+ post) = true)
        by (apply prefix_true_iff; by exists post).
      change ("" +:+ needle +:+ post) with (needle +:+ post).
      destruct (needle +:+ post); cbn [str_contains]; by rewrite Hp.
    + rewrite append_cons. cbn [str_contains]. by rewrite IH, orb_true_r.
Qed.

(** The redirect test is a substring test on the URL after navigation: it
    holds exactly when the URL contains "login" or contains "checkpoint",
    wherever in the URL that is. *)
Theorem login_redirect_iff_substring (current_url : string) :
  is_login_redirect current_url = true
  ↔ (∃ pre post, current_url = pre +:+ "login" +:+ post)
    ∨ (∃ pre post, current_url = pre +:+ "checkpoint" +:+ post).
Proof.
  unfold is_login_redirect. rewrite orb_true_iff.
  by rewrite !str_contains_split.
Qed.

(** The redirect test looks at the whole URL: the word "login" or
    "checkpoint" anywhere in it, a profile handle included, makes the fetch
    stop with the authentication error. *)
Theorem redirect_test_is_a_substring_test
    (b : Browser) (li_at_cookie url : string) (pg : page) (pre post : string) d :
  lands_on b li_at_cookie url pg →
  page_url pg = pre +:+ "login" +:+ post ∨ page_url pg = pre +:+ "checkpoint" +:+ post →
  close b = Ret tt →
  get_authenticated_html b li_at_cookie url d
  = Py.Run (Ret None) d
      (landing_events li_at_cookie url ++ [auth_error; BrowserClose; PlaywrightStop]).
Proof.
  intros Hland Hurl Hclose.
  assert (Hredirect : is_login_redirect (page_url pg) = true).
  { unfold is_login_redirect. apply orb_true_iff.
    destruct Hurl as [Hurl|Hurl]; [left|right];
      apply str_contains_split; by exists pre, post. }
  rewrite (fetch_rejects b li_at_cookie url pg d Hland Hredirect).
  by rewrite Hclose.
Qed.

Lemma redirect_test_is_a_substring_test_witness :
  lands_on (Double.browser Sample.handle_page) "AQEDAT"
    "https://www.linkedin.com/in/loginov/recent-activity/all/" Sample.handle_page
  ∧ Py.result (get_authenticated_html (Double.browser Sample.handle_page) "AQEDAT"
                 "https://www.linkedin.com/in/loginov/recent-activity/all/" ∅)
    = Ret None.
Proof.
  assert (Hland : lands_on (Double.browser Sample.handle_page) "AQEDAT"
            "https://www.linkedin.com/in/loginov/recent-activity/all/"
            Sample.handle_page) by (repeat split).
  split; [exact Hland|].
  rewrite (redirect_test_is_a_substring_test (Double.browser Sample.handle_page)
             "AQEDAT" "https://www.linkedin.com/in/loginov/recent-activity/all/"
             Sample.handle_page "https://www.linkedin.com/in/"
             "ov/recent-activity/all/" ∅ Hland (or_introl eq_refl) eq_refl).
  reflexivity.
Defined.

(** ** Further properties: the session fetcher *)

(** The loop stops at the first selector that resolves and whose inner
    markup can be read, after a miss on each selector before it. *)
Lemma for_loop_first_hit
    (pg : page) (misses : list string) (sel : string) (later : list string)
    (el : element) (html : string) d :
  (∀ s, s ∈ misses → ¬ resolves pg s) →
  query_selector pg sel = Ret (Some el) →
  inner_html el = Ret html →
  for_loop (misses ++ sel :: later) (probe pg) d
  = Py.Run (Ret (Some html)) d
      (map QuerySelector misses ++ [QuerySelector sel; InnerHtml; found sel]).
Proof.
  intros Hmiss Hq Hinner. induction misses as [|miss misses IH].
  - cbn [app for_loop map]. py_unfold. by rewrite probe_run, Hq, Hinner.
  - rewrite <- app_comm_cons.
    rewrite (for_loop_next pg miss _ [QuerySelector miss]).
    + rewrite IH; [done|]. intros s Hs. apply Hmiss. by right.
    + rewrite probe_run.
      destruct (query_selector pg miss) as [[el'|]|e] eqn:Hm; try done.
      exfalso. apply (Hmiss miss); [by left|]. by exists el'.
Qed.

(** First match wins at any position: when the candidates before a selector
    all miss and that selector resolves to an element with markup that is
    not empty, the fetch returns that markup and probes no candidate after
    it. *)
Theorem later_match_returns_inner_markup
    (b : Browser) (li_at_cookie url : string) (pg : page)
    (misses : list string) (sel : string) (later : list string)
    (el : element) (html : string) d :
  lands_on b li_at_cookie url pg →
  is_login_redirect (page_url pg) = false →
  close b = Ret tt →
  selectors_to_try = misses ++ sel :: later →
  (∀ s, s ∈ misses → ¬ resolves pg s) →
  query_selector pg sel = Ret (Some el) →
  inner_html el = Ret html →
  html ≠ "" →
  get_authenticated_html b li_at_cookie url d
  = Py.Run (Ret (Some html)) d
      (landing_events li_at_cookie url
       ++ map QuerySelector misses
       ++ [QuerySelector sel; InnerHtml; found sel; BrowserClose; PlaywrightStop]).
Proof.
  intros Hland Hredirect Hclose Hsplit Hmiss Hq Hinner Hne.
  rewrite (fetch_harvests b li_at_cookie url pg d Hland Hredirect).
  unfold harvest. rewrite Hsplit. py_unfold.
  rewrite (for_loop_first_hit pg misses sel later el html d Hmiss Hq Hinner).
  cbn [truthy_html]. destruct (String.eqb_spec html "") as [|_]; [done|].
  cbn [negb]. rewrite Hclose. cbn [Py.result Py.disk Py.events].
  by rewrite !app_nil_r, <- !app_assoc.
Qed.

Lemma later_match_returns_inner_markup_witness :
  lands_on (Double.browser Sample.second_match_page) "AQEDAT"
    "https://www.linkedin.com/in/someone/recent-activity/all/" Sample.second_match_page
  ∧ Py.result (get_authenticated_html (Double.browser Sample.second_match_page)
                 "AQEDAT" "https://www.linkedin.com/in/someone/recent-activity/all/" ∅)
    = Ret (Some "<div>feed</div>").
Proof.
  assert (Hland : lands_on (Double.browser Sample.second_match_page) "AQEDAT"
            "https://www.linkedin.com/in/someone/recent-activity/all/"
            Sample.second_match_page) by (repeat split).
  assert (Hmiss : ∀ s,
            s ∈ ["ul.display-flex.flex-wrap.list-style-none.justify-center"] →
            ¬ resolves Sample.second_match_page s).
  { intros s Hs [el Hel]. apply list_elem_of_singleton in Hs as ->.
    discriminate Hel. }
  assert (Hne : "<div>feed</div>" ≠ "") by discriminate.
  split; [exact Hland|].
  rewrite (later_match_returns_inner_markup (Double.browser Sample.second_match_page)
             "AQEDAT" "https://www.linkedin.com/in/someone/recent-activity/all/"
             Sample.second_match_page
             ["ul.display-flex.flex-wrap.list-style-none.justify-center"]
             ".scaffold-finite-scroll__content" [".application-outlet main"]
             {| inner_html := Ret "<div>feed</div>" |} "<div>feed</div>" ∅
             Hland eq_refl eq_refl eq_refl Hmiss eq_refl eq_refl Hne).
  reflexivity.
Defined.

(** A container that is present and empty: the first selector resolves, its
    inner markup is the empty string, and the fetch announces the container,
    then warns that none was found and returns the markup of the whole
    page, without probing the later candidates. *)
Theorem empty_container_falls_back_to_full_page
    (b : Browser) (li_at_cookie url : string) (pg : page) (first : string)
    (el : element) (whole : string) d :
  lands_on b li_at_cookie url pg →
  is_login_redirect (page_url pg) = false →
  close b = Ret tt →
  head selectors_to_try = Some first →
  query_selector pg first = Ret (Some el) →
  inner_html el = Ret "" →
  content pg = Ret whole →
  get_authenticated_html b li_at_cookie url d
  = Py.Run (Ret (Some whole)) d
      (landing_events li_at_cookie url
       ++ [ QuerySelector first; InnerHtml; found first; fallback_warning;
            PageContent; BrowserClose; PlaywrightStop ]).
Proof.
  intros Hland Hredirect Hclose Hfirst Hq Hinner Hcontent.
  rewrite (fetch_harvests b li_at_cookie url pg d Hland Hredirect).
  injection Hfirst as <-.
  unfold harvest, selectors_to_try. cbn [for_loop].
  py_unfold. rewrite probe_run, Hq, Hinner. simpl.
  by rewrite Hcontent, Hclose.
Qed.

Lemma empty_container_falls_back_to_full_page_witness :
  lands_on (Double.browser Double.empty_feed_page) "AQEDAT"
    "https://www.linkedin.com/in/someone/recent-activity/all/" Double.empty_feed_page
  ∧ inner_html Double.empty_feed = Ret ""
  ∧ Py.result (get_authenticated_html (Double.browser Double.empty_feed_page)
                 "AQEDAT" "https://www.linkedin.com/in/someone/recent-activity/all/" ∅)
    = Ret (Some "<html><body>whole page</body></html>").
Proof.
  assert (Hland : lands_on (Double.browser Double.empty_feed_page) "AQEDAT"
            "https://www.linkedin.com/in/someone/recent-activity/all/"
            Double.empty_feed_page) by (repeat split).
  split; [exact Hland|]. split; [reflexivity|].
  rewrite (empty_container_falls_back_to_full_page
             (Double.browser Double.empty_feed_page) "AQEDAT"
             "https://www.linkedin.com/in/someone/recent-activity/all/"
             Double.empty_feed_page
             "ul.display-flex.flex-wrap.list-style-none.justify-center"
             Double.empty_feed "<html><body>whole page</body></html>" ∅
             Hland eq_refl eq_refl eq_refl eq_refl eq_refl eq_refl).
  reflexivity.
Defined.

(** The selector loop makes no call but queries, reads of inner markup and
    the success message. *)
Lemma loop_events_are_probes (pg : page) (sels : list string) d :
  Forall (λ ev, probing_event ev = true ∨ ∃ text, ev = st_success text)
         (Py.events (for_loop sels (probe pg) d)).
Proof.
  induction sels as [|sel sels IH]; [by constructor|].
  simpl. py_unfold. rewrite probe_run.
  assert (Hq : probing_event (QuerySelector sel) = true
               ∨ ∃ text, QuerySelector sel = st_success text) by (by left).
  assert (Hi : probing_event InnerHtml = true ∨ ∃ text, InnerHtml = st_success text)
    by (by left).
  destruct (query_selector pg sel) as [[el|]|e]; simpl;
    try destruct (inner_html el); simpl;
    try destruct (for_loop sels (probe pg) d) as [[?|?] ? ?]; simpl in *;
    repeat (constructor; [by eauto|]); try done; by constructor.
Qed.

(** When the fetch raises although [browser.close()] would have succeeded,
    [browser.close()] has not been called: on those paths leaving the
    [async with] scope is the only teardown. *)
Theorem raising_fetch_skips_browser_close
    (b : Browser) (li_at_cookie url : string) (e : exn) d :
  close b = Ret tt →
  Py.result (get_authenticated_html b li_at_cookie url d) = Raise e →
  existsb is_browser_close (Py.events (get_authenticated_html b li_at_cookie url d))
  = false.
Proof.
  assert (Hl := λ pg d0, loop_events_are_probes pg selectors_to_try d0).
  revert Hl.
  fetch_walk b url loop; intros Hl Hclose Hraise; try done;
    rewrite ?existsb_app; simpl; rewrite ?orb_false_r;
    match goal with
    | E : ?f (probe ?p) ?d0 = _ |- _ =>
        specialize (Hl p d0); rewrite E in Hl; simpl in Hl;
        apply not_true_is_false; intros Hex;
        apply existsb_exists in Hex as (ev & Hin & Hev);
        rewrite Forall_forall in Hl;
        destruct (Hl ev) as [Hp|[text ->]];
        [by apply list_elem_of_In | by destruct ev | done]
    end.
Qed.

Lemma raising_fetch_skips_browser_close_witness :
  Py.result (get_authenticated_html Double.stalled_browser "AQEDAT"
               "https://www.linkedin.com/in/someone/recent-activity/all/" ∅)
  = Raise (Exn PlaywrightTimeoutError "Timeout 60000ms exceeded.")
  ∧ existsb is_browser_close
      (Py.events (get_authenticated_html Double.stalled_browser "AQEDAT"
                    "https://www.linkedin.com/in/someone/recent-activity/all/" ∅))
    = false.
Proof.
  split; [reflexivity|].
  apply (raising_fetch_skips_browser_close Double.stalled_browser "AQEDAT"
           "https://www.linkedin.com/in/someone/recent-activity/all/"
           (Exn PlaywrightTimeoutError "Timeout 60000ms exceeded.") ∅);
    first [reflexivity | split; reflexivity].
Defined.

(** A test that is false on every probing call and on the success message
    is false on the whole of the selector loop. *)
Lemma loop_events_exclude (test : event → bool) (pg : page) (sels : list string) d :
  (∀ ev, probing_event ev = true → test ev = false) →
  (∀ text, test (st_success text) = false) →
  existsb test (Py.events (for_loop sels (probe pg) d)) = false.
Proof.
  intros Hprobe Hsuccess. apply not_true_is_false. intros Hex.
  apply existsb_exists in Hex as (ev & Hin & Hev).
  pose proof (loop_events_are_probes pg sels d) as Hall.
  rewrite Forall_forall in Hall.
  destruct (Hall ev) as [Hp|[text ->]]; [by apply list_elem_of_In | |].
  - rewrite (Hprobe ev Hp) in Hev. discriminate.
  - rewrite Hsuccess in Hev. discriminate.
Qed.

(** The fetch navigates at most once, and only after the context has taken
    the [li_at] cookie: a run that navigates starts with the launch, the new
    context, the cookie for [.linkedin.com] with the given value, and the new
    page, in that order, and the call that installed the cookie returned. *)
Theorem navigation_follows_cookie (b : Browser) (li_at_cookie url : string) d :
  existsb is_goto (Py.events (get_authenticated_html b li_at_cookie url d)) = true →
  ∃ rest,
    Py.events (get_authenticated_html b li_at_cookie url d)
    = navigation_prefix li_at_cookie url ++ rest
    ∧ existsb is_goto rest = false
    ∧ add_cookies b (li_at li_at_cookie) = Ret tt.
Proof.
  assert (Hl := λ pg d0,
    loop_events_exclude is_goto pg selectors_to_try d0
      (λ ev, ltac:(by destruct ev)) (λ _, eq_refl)).
  revert Hl. unfold navigation_prefix, li_at.
  fetch_walk b url loop; intros Hl Hnav; try done;
    (eexists; split; [reflexivity|]);
    (split; [|by destruct_all unit]);
    simpl; rewrite ?existsb_app; simpl; try done;
    match goal with
    | E : ?f (probe ?p) ?d0 = _ |- _ =>
        specialize (Hl p d0); rewrite E in Hl; simpl in Hl; by rewrite Hl
    end.
Qed.

Lemma navigation_follows_cookie_witness :
  existsb is_goto
    (Py.events (get_authenticated_html Double.stalled_browser "AQEDAT"
                  "https://www.linkedin.com/in/someone/recent-activity/all/" ∅))
  = true
  ∧ ∃ rest,
      Py.events (get_authenticated_html Double.stalled_browser "AQEDAT"
                   "https://www.linkedin.com/in/someone/recent-activity/all/" ∅)
      = navigation_prefix "AQEDAT"
          "https://www.linkedin.com/in/someone/recent-activity/all/" ++ rest.
Proof.
  split; [reflexivity|].
  destruct (navigation_follows_cookie Double.stalled_browser "AQEDAT"
              "https://www.linkedin.com/in/someone/recent-activity/all/" ∅ eq_refl)
    as (rest & Hrest & _).
  exists rest. exact Hrest.
Defined.

(** A driver that cannot create the page is never asked to navigate. *)
Example no_page_no_navigation :
  existsb is_goto
    (Py.events (get_authenticated_html Sample.no_page_browser "AQEDAT"
                  "https://www.linkedin.com/in/someone/recent-activity/all/" ∅))
  = false.
Proof. reflexivity. Qed.

(** The cookie value goes into the [add_cookies] call and into no other
    call: for two values on which the driver answers alike, the two runs of
    the fetch return the same result, leave the same disk, and make the same
    calls, one for one, except that the [add_cookies] call of each run
    carries the [li_at] cookie with that run's value.  In particular no
    Streamlit call, no navigation and no file call depends on the value. *)
Theorem cookie_value_is_not_shown (b : Browser) (c1 c2 url : string) d :
  add_cookies b (li_at c1) = add_cookies b (li_at c2) →
  goto b (li_at c1) url = goto b (li_at c2) url →
  Py.result (get_authenticated_html b c1 url d)
  = Py.result (get_authenticated_html b c2 url d)
  ∧ Py.disk (get_authenticated_html b c1 url d)
    = Py.disk (get_authenticated_html b c2 url d)
  ∧ map (Sample.recookie c2) (Py.events (get_authenticated_html b c1 url d))
    = Py.events (get_authenticated_html b c2 url d)
  ∧ map (Sample.recookie c1) (Py.events (get_authenticated_html b c2 url d))
    = Py.events (get_authenticated_html b c1 url d).
Proof.
  assert (Hl := λ pg d0, loop_events_are_probes pg selectors_to_try d0).
  assert (Hfix : ∀ c t,
    Forall (λ ev, probing_event ev = true ∨ ∃ text, ev = st_success text) t →
    map (Sample.recookie c) t = t).
  { intros c t Hall. induction Hall as [|ev t Hev _ IH]; [done|].
    cbn [map]. rewrite IH. destruct Hev as [Hev|[text ->]]; [by destruct ev|done]. }
  revert Hl. unfold li_at. intros Hl Hcookies Hgoto.
  unfold get_authenticated_html. cbn zeta. rewrite Hcookies, Hgoto.
  clear Hcookies Hgoto. revert Hl.
  fetch_walk b url loop; intros Hl; try done;
    repeat split; try done;
    unfold li_at; cbn [map Sample.recookie]; rewrite ?map_app;
    cbn [map Sample.recookie];
    match goal with
    | E : ?f (probe ?p) ?d0 = _ |- _ =>
        pose proof (Hl p d0) as Hall; rewrite E in Hall; simpl in Hall;
        by rewrite (Hfix _ _ Hall)
    end.
Qed.

Lemma cookie_value_is_not_shown_witness :
  map (Sample.recookie "AQEDAT-two")
    (Py.events (get_authenticated_html (Double.browser Double.feed_page)
                  "AQEDAT-one" "https://www.linkedin.com/in/someone/recent-activity/all/" ∅))
  = Py.events (get_authenticated_html (Double.browser Double.feed_page)
                 "AQEDAT-two" "https://www.linkedin.com/in/someone/recent-activity/all/" ∅).
Proof.
  apply (cookie_value_is_not_shown (Double.browser Double.feed_page)
           "AQEDAT-one" "AQEDAT-two"
           "https://www.linkedin.com/in/someone/recent-activity/all/" ∅);
    reflexivity.
Defined.

(** ** Further properties: the extraction orchestrator *)

(** The result loop leaves the disk alone. *)
Lemma result_loop_disk (s : Services) (results : list CrawlResult) d :
  Py.disk (for_loop results (handle_result s) d) = d.
Proof.
  destruct results as [|r rest]; [done|].
  rewrite result_loop_first. cbn [for_loop]. py_unfold. rewrite handle_result_run.
  destruct (success r); [|done].
  destruct (extracted_content r) as [raw|]; [|done].
  by destruct (json_loads s raw).
Qed.

(** Apart from what the backend does to the disk, the [try] block leaves it
    alone. *)
Lemma extract_body_disk (s : Services) (path : string) d :
  (∀ d0 url config, (arun s d0 url config).2 = d0) →
  Py.disk (extract_body s path d) = d.
Proof.
  intros Hquiet. unfold extract_body, secrets_get, abspath, crawler_arun.
  py_unfold. cbn -[for_loop String.append llm_strategy].
  destruct (secrets s !! "GROQ_API_KEY") as [key|];
    cbn -[for_loop String.append llm_strategy]; [|done].
  destruct (crawler_start s); cbn -[for_loop String.append llm_strategy]; [|done].
  specialize (Hquiet d ("file://" +:+ path) (llm_strategy key)).
  destruct (arun s d ("file://" +:+ path) (llm_strategy key)) as [[results|e] d'];
    simpl in Hquiet; subst d'; cbn -[for_loop String.append llm_strategy]; [|done].
  pose proof (result_loop_disk s results d) as Hloop.
  by destruct (for_loop results (handle_result s) d) as [[[v|]|e] d2 t2];
    simpl in Hloop; subst d2.
Qed.

(** With a backend that leaves the files alone, the extraction touches no
    path but the temporary one: every other path holds after the run what it
    held before, whether the function returns or raises, and whether or not
    the creation, the write or the deletion of the temporary file fails.
    When the file is written and the system does not refuse the deletion,
    the disk after the run is the disk before it without the temporary
    path. *)
Theorem extract_only_touches_temp_file (s : Services) (html_content : string) d :
  (∀ d0 url config, (arun s d0 url config).2 = d0) →
  (∀ path, path ≠ temp_name s →
     Py.disk (extract_with_crawl4ai s html_content d) !! path = d !! path)
  ∧ (temp_file_written s html_content →
     unlink_fault s (temp_name s) = None →
     Py.disk (extract_with_crawl4ai s html_content d) = delete (temp_name s) d).
Proof.
  intros Hquiet. split.
  - intros path Hpath. rewrite extract_run_cases.
    destruct (temp_create s); [|done].
    destruct (temp_write s _); cbn [Py.disk].
    + rewrite (extract_body_disk s _ _ Hquiet).
      unfold after_cleanup, disk_with_shell.
      destruct (_ !! temp_name s); [destruct (unlink_fault s _)|];
        rewrite ?lookup_delete_ne by done; by rewrite !lookup_insert_ne by done.
    + by rewrite lookup_insert_ne by done.
  - intros Hwritten Hfault. rewrite (extract_run s html_content d Hwritten).
    cbn [Py.disk]. rewrite (after_cleanup_unrefused _ _ _ Hfault).
    rewrite (extract_body_disk s _ _ Hquiet). unfold disk_with_shell.
    by rewrite !delete_insert_eq.
Qed.

Lemma extract_only_touches_temp_file_witness :
  Py.disk (extract_with_crawl4ai Sample.unwritable "<li>post</li>"
             {[ "/tmp/notes.txt" := "keep" ]}) !! "/tmp/notes.txt"
  = Some "keep".
Proof.
  assert (Hpath : "/tmp/notes.txt" ≠ temp_name Sample.unwritable) by discriminate.
  rewrite (proj1 (extract_only_touches_temp_file Sample.unwritable "<li>post</li>"
                    {[ "/tmp/notes.txt" := "keep" ]} (λ _ _ _, eq_refl))
             "/tmp/notes.txt" Hpath).
  reflexivity.
Defined.

(** When the first result object reports success and its content parses,
    the extraction returns the decoded value as it is, list or not, after
    the success message. *)
Theorem parsed_content_is_returned_as_decoded
    (s : Services) (html_content key raw : string) (data : json)
    (r : CrawlResult) (rest : list CrawlResult) d :
  temp_file_written s html_content →
  secrets s !! "GROQ_API_KEY" = Some key →
  crawler_start s = Ret tt →
  backend_answer s html_content key d = Ret (r :: rest) →
  success r = true →
  extracted_content r = Some raw →
  json_loads s raw = Some data →
  Py.result (extract_with_crawl4ai s html_content d) = Ret data
  ∧ Py.events (extract_with_crawl4ai s html_content d)
    = extraction_prefix s html_content ++ crawl_events s key
      ++ [ st_success "✅ Crawl4AI extraction successful!";
           CrawlerClose; Unlink (temp_name s) ].
Proof.
  intros Hwritten Hkey Hstart Hanswer Hsuccess Hcontent Hparse.
  rewrite (extract_run s html_content d Hwritten).
  rewrite (extract_body_answered s _ key r rest _ Hkey Hstart Hanswer).
  cbn [Py.result Py.events]. rewrite handle_result_run.
  by rewrite Hsuccess, Hcontent, Hparse.
Qed.

Lemma parsed_content_is_returned_as_decoded_witness :
  json_loads (Double.services Double.keys
                (Ret [{| success := true; extracted_content := Some "{}" |}])) "{}"
  = Some (JObj [])
  ∧ Py.result (extract_with_crawl4ai
                 (Double.services Double.keys
                    (Ret [{| success := true; extracted_content := Some "{}" |}]))
                 "<li>post</li>" ∅)
    = Ret (JObj []).
Proof.
  split; [reflexivity|].
  apply (parsed_content_is_returned_as_decoded
           (Double.services Double.keys
              (Ret [{| success := true; extracted_content := Some "{}" |}]))
           "<li>post</li>" "gsk_test" "{}" (JObj [])
           {| success := true; extracted_content := Some "{}" |} [] ∅);
    first [reflexivity | split; reflexivity].
Defined.



(** When the backend hands back no result object at all, the loop body
    never runs and the function ends without a [return]: the caller gets
    [None], not a list, and no message is shown. *)
Theorem empty_response_gives_none (s : Services) (html_content key : string) d :
  temp_file_written s html_content →
  secrets s !! "GROQ_API_KEY" = Some key →
  crawler_start s = Ret tt →
  backend_answer s html_content key d = Ret [] →
  Py.result (extract_with_crawl4ai s html_content d) = Ret JNull
  ∧ Py.events (extract_with_crawl4ai s html_content d)
    = extraction_prefix s html_content ++ crawl_events s key
      ++ [CrawlerClose; Unlink (temp_name s)].
Proof.
  intros Hwritten Hkey Hstart Hanswer.
  rewrite (extract_run s html_content d Hwritten).
  unfold backend_answer in Hanswer.
  unfold extract_body, secrets_get, abspath, crawler_arun. rewrite Hkey, Hstart.
  py_unfold. cbn -[String.append llm_strategy disk_with_shell].
  destruct (arun s _ _ _) as [answer d']. simpl in Hanswer. by subst answer.
Qed.

Lemma empty_response_gives_none_witness :
  backend_answer (Double.services Double.keys (Ret [])) "<li>post</li>" "gsk_test" ∅
  = Ret []
  ∧ Py.result (extract_with_crawl4ai (Double.services Double.keys (Ret []))
                 "<li>post</li>" ∅)
    = Ret JNull.
Proof.
  split; [reflexivity|].
  apply (empty_response_gives_none (Double.services Double.keys (Ret []))
           "<li>post</li>" "gsk_test" ∅); first [reflexivity | split; reflexivity].
Defined.



(** ** Further properties: the display and the top level *)

(** The card of one post that is a dict, followed by the later posts. *)
Lemma show_posts_dict (i : nat) (fields : list (string * json)) (rest : list json) d :
  show_posts i (JObj fields :: rest) d
  = (let r := show_posts (S i) rest d in
     Py.Run (Py.result r) (Py.disk r) (post_card (i + 1) fields ++ Py.events r)).
Proof.
  cbn [show_posts]. unfold post_card, fields_shown. cbn [map fst snd].
  generalize ("Post " +:+ pretty (i + 1)). intros title.
  unfold write_field, post_get. py_unfold. cbn -[show_posts dict_lookup].
  by destruct (show_posts (S i) rest d) as [[[]|e] d1 t1].
Qed.

(** A value without [get] stops the display at its own card. *)
Lemma show_posts_not_dict (i : nat) (post : json) (rest : list json) d :
  is_dict post = false →
  show_posts i (post :: rest) d
  = Py.Run (Raise (Exn AttributeError "object has no attribute 'get'")) d
      [st_subheader ("Post " +:+ pretty (i + 1)); st_columns 2].
Proof.
  intros Hpost. cbn [show_posts].
  generalize ("Post " +:+ pretty (i + 1)). intros title.
  unfold write_field, post_get. py_unfold. by destruct post.
Qed.

Lemma dict_posts_are_shown_in_order_aux
    (i : nat) (dicts : list (list (string * json))) d :
  show_posts i (map JObj dicts) d = Py.Run (Ret tt) d (post_cards (i + 1) dicts).
Proof.
  revert i. induction dicts as [|fields dicts IH]; intros i; [done|].
  cbn [map post_cards]. rewrite show_posts_dict, IH.
  cbn [Py.result Py.disk Py.events]. by replace (S i + 1) with (S (i + 1)) by lia.
Qed.

(** The formatted output of well-formed records: when every post is a
    dict, the display returns, and shows one card per post in the order of
    the list, numbered from 1, each with the seven fields in the order of the
    source; a missing key shows ['N/A'] and a key that is present shows its
    value, [None] included. *)
Theorem dict_posts_are_shown_in_order
    (i : nat) (dicts : list (list (string * json))) d :
  show_posts i (map JObj dicts) d = Py.Run (Ret tt) d (post_cards (i + 1) dicts)
  ∧ length (List.filter (λ ev, match ev with st_subheader _ => true | _ => false end)
              (post_cards (i + 1) dicts)) = length dicts
  ∧ length (post_cards (i + 1) dicts) = 9 * length dicts.
Proof.
  split; [apply dict_posts_are_shown_in_order_aux|].
  generalize (i + 1). intros n. split.
  - revert n. induction dicts as [|fields dicts IH]; intros n; [done|].
    cbn [post_cards length]. rewrite List.filter_app, length_app, IH. done.
  - revert n. induction dicts as [|fields dicts IH]; intros n; [done|].
    cbn [post_cards length]. rewrite length_app, IH. cbn. lia.
Qed.

(** The display stops at the first post that is not a dict: the posts
    before it are shown in full, the offender gets its heading and columns,
    then [AttributeError] is raised and nothing after it is shown. *)
Theorem display_stops_at_first_non_dict
    (i : nat) (dicts : list (list (string * json))) (post : json)
    (rest : list json) d :
  is_dict post = false →
  show_posts i (map JObj dicts ++ post :: rest) d
  = Py.Run (Raise (Exn AttributeError "object has no attribute 'get'")) d
      (post_cards (i + 1) dicts
       ++ [st_subheader ("Post " +:+ pretty (i + length dicts + 1)); st_columns 2]).
Proof.
  intros Hpost. revert i. induction dicts as [|fields dicts IH]; intros i.
  - cbn [map app post_cards length]. rewrite (show_posts_not_dict _ _ _ _ Hpost).
    by replace (i + 0 + 1) with (i + 1) by lia.
  - cbn [map app post_cards length]. rewrite show_posts_dict, IH.
    cbn [Py.result Py.disk Py.events].
    replace (S i + 1) with (S (i + 1)) by lia.
    replace (S i + length dicts + 1) with (i + S (length dicts) + 1) by lia.
    by rewrite <- app_assoc.
Qed.

Lemma display_stops_at_first_non_dict_witness :
  is_dict (JStr "not a record") = false
  ∧ Py.result (show_posts 0
                 [JObj [("company_name", JStr "Acme")]; JStr "not a record"; JObj []] ∅)
    = Raise (Exn AttributeError "object has no attribute 'get'").
Proof.
  split; [reflexivity|].
  rewrite (display_stops_at_first_non_dict 0 [[("company_name", JStr "Acme")]]
             (JStr "not a record") [JObj []] ∅ eq_refl).
  reflexivity.
Defined.

(** The extraction block on a fragment that is not empty, in terms of the
    run of the extraction. *)
Lemma run_extraction_returned (s : Services) (html : string) (data : json) d :
  html ≠ "" →
  Py.result (extract_with_crawl4ai s html d) = Ret data →
  run_extraction s (Some html) d
  = (let x := extract_with_crawl4ai s html d in
     let shown :=
       (if truthy data then
          Py.emit (st_header "📊 Final Results");;
          Py.emit (st_json data);;
          Py.emit (st_header "📋 Formatted Output");;
          posts ← py_iter data;
          show_posts 0 posts
        else Py.emit no_data_error) (Py.disk x) in
     Py.Run (Py.result shown) (Py.disk shown)
            (Py.events x ++ extraction_complete :: Py.events shown)).
Proof.
  intros Hne Hdata. unfold run_extraction. cbn [truthy_html].
  destruct (String.eqb_spec html "") as [|_]; [done|]. cbn [negb].
  unfold mbind at 1. unfold Py_bind at 1. unfold Py.bind at 1.
  destruct (extract_with_crawl4ai s html d) as [res d1 t1]. simpl in Hdata.
  subst res. cbn [Py.result Py.disk Py.events].
  unfold mbind at 1. unfold Py_bind at 1. unfold Py.bind at 1.
  unfold Py.emit at 1. unfold no_data_error, extraction_complete.
  match goal with
  | |- context [match ?k d1 with Py.Run _ _ _ => _ end] => by destruct (k d1)
  end.
Qed.

(** Data that is falsy, [None] and the empty list alike, but also an empty
    dict, an empty string, zero or [False], is reported as "no data": the
    block marks the extraction complete, shows the error and returns. *)
Theorem falsy_data_is_reported_as_no_data
    (s : Services) (html : string) (data : json) d :
  html ≠ "" →
  Py.result (extract_with_crawl4ai s html d) = Ret data →
  truthy data = false →
  run_extraction s (Some html) d
  = Py.Run (Ret tt) (Py.disk (extract_with_crawl4ai s html d))
      (Py.events (extract_with_crawl4ai s html d)
       ++ [extraction_complete; no_data_error]).
Proof.
  intros Hne Hdata Hfalsy.
  rewrite (run_extraction_returned s html data d Hne Hdata). by rewrite Hfalsy.
Qed.

Lemma falsy_data_is_reported_as_no_data_witness :
  Py.result (extract_with_crawl4ai (Double.services Double.keys (Ret []))
               "<li>post</li>" ∅) = Ret JNull
  ∧ Py.result (run_extraction (Double.services Double.keys (Ret []))
                 (Some "<li>post</li>") ∅) = Ret tt.
Proof.
  assert (Hne : "<li>post</li>" ≠ "") by discriminate.
  assert (Hdata : Py.result (extract_with_crawl4ai
                    (Double.services Double.keys (Ret [])) "<li>post</li>" ∅)
                  = Ret JNull) by reflexivity.
  split; [exact Hdata|].
  rewrite (falsy_data_is_reported_as_no_data (Double.services Double.keys (Ret []))
             "<li>post</li>" JNull ∅ Hne Hdata eq_refl).
  reflexivity.
Defined.

(** Records end to end within the block: when the extraction returns a list
    of dicts that is not empty, the block shows the raw list, then one card
    per record in order, and returns. *)
Theorem returned_records_are_displayed
    (s : Services) (html : string) (dicts : list (list (string * json))) d :
  html ≠ "" →
  dicts ≠ [] →
  Py.result (extract_with_crawl4ai s html d) = Ret (JArr (map JObj dicts)) →
  run_extraction s (Some html) d
  = Py.Run (Ret tt) (Py.disk (extract_with_crawl4ai s html d))
      (Py.events (extract_with_crawl4ai s html d)
       ++ [ extraction_complete; st_header "📊 Final Results";
            st_json (JArr (map JObj dicts)); st_header "📋 Formatted Output" ]
       ++ post_cards 1 dicts).
Proof.
  intros Hne Hdicts Hdata.
  rewrite (run_extraction_returned s html _ d Hne Hdata).
  destruct dicts as [|fields dicts]; [done|].
  cbn [truthy map]. unfold py_iter. py_unfold.
  change (JObj fields :: map JObj dicts) with (map JObj (fields :: dicts)).
  by rewrite dict_posts_are_shown_in_order_aux.
Qed.

Lemma returned_records_are_displayed_witness :
  Py.result (extract_with_crawl4ai
               (Double.services Double.keys
                  (Ret [{| success := true; extracted_content := Some "[{}]" |}]))
               "<li>post</li>" ∅)
  = Ret (JArr (map JObj [[]]))
  ∧ Py.result (run_extraction
                 (Double.services Double.keys
                    (Ret [{| success := true; extracted_content := Some "[{}]" |}]))
                 (Some "<li>post</li>") ∅)
    = Ret tt.
Proof.
  assert (Hne : "<li>post</li>" ≠ "") by discriminate.
  assert (Hdicts : [([] : list (string * json))] ≠ []) by discriminate.
  assert (Hdata : Py.result (extract_with_crawl4ai
                    (Double.services Double.keys
                       (Ret [{| success := true; extracted_content := Some "[{}]" |}]))
                    "<li>post</li>" ∅)
                  = Ret (JArr (map JObj [[]]))) by reflexivity.
  split; [exact Hdata|].
  rewrite (returned_records_are_displayed
             (Double.services Double.keys
                (Ret [{| success := true; extracted_content := Some "[{}]" |}]))
             "<li>post</li>" [[]] ∅ Hne Hdicts Hdata).
  reflexivity.
Defined.

(** Data that decodes to a JSON object instead of an array: iterating a
    dict yields its keys, which are strings and have no [get], so the block
    shows the raw object and the two headers, then raises [AttributeError]
    at the first card. *)
Theorem object_data_breaks_the_display
    (s : Services) (html key : string) (value : json)
    (fields : list (string * json)) d :
  html ≠ "" →
  Py.result (extract_with_crawl4ai s html d) = Ret (JObj ((key, value) :: fields)) →
  run_extraction s (Some html) d
  = Py.Run (Raise (Exn AttributeError "object has no attribute 'get'"))
      (Py.disk (extract_with_crawl4ai s html d))
      (Py.events (extract_with_crawl4ai s html d)
       ++ [ extraction_complete; st_header "📊 Final Results";
            st_json (JObj ((key, value) :: fields)); st_header "📋 Formatted Output";
            st_subheader "Post 1"; st_columns 2 ]).
Proof.
  intros Hne Hdata.
  rewrite (run_extraction_returned s html _ d Hne Hdata).
  cbn [truthy]. unfold py_iter. py_unfold. cbn [map fst].
  by rewrite (show_posts_not_dict 0 (JStr key) _ _ eq_refl).
Qed.

Lemma object_data_breaks_the_display_witness :
  Py.result (run_extraction
               {| temp_name := "/tmp/tmpab12cd34.html";
                  temp_create := Ret tt;
                  temp_write := λ _, Ret tt;
                  unlink_fault := λ _, None;
                  secrets := Double.keys;
                  crawler_start := Ret tt;
                  arun := λ d _ _,
                    (Ret [{| success := true; extracted_content := Some "obj" |}], d);
                  json_loads := λ _, Some (JObj [("company_name", JStr "Acme")]) |}
               (Some "<li>post</li>") ∅)
  = Raise (Exn AttributeError "object has no attribute 'get'").
Proof.
  assert (Hne : "<li>post</li>" ≠ "") by discriminate.
  rewrite (object_data_breaks_the_display _ "<li>post</li>" "company_name"
             (JStr "Acme") [] ∅ Hne); first [reflexivity | split; reflexivity].
Defined.

(** Every fetch begins by starting the automation engine. *)
Lemma fetch_starts (b : Browser) (li_at_cookie url : string) d :
  ∃ rest, Py.events (get_authenticated_html b li_at_cookie url d)
          = PlaywrightStart :: rest.
Proof.
  unfold get_authenticated_html, async_with.
  unfold mbind at 1. unfold Py_bind, Py.bind. unfold call at 1. py_unfold. simpl.
  destruct (engine_start b); simpl; [|by eexists].
  match goal with
  | |- context [match ?m with Py.Run _ _ _ => _ end] => destruct m
  end.
  by eexists.
Qed.

(** The guarded block, [main_app] around it. *)
Lemma main_app_guarded (b : Browser) (s : Services) (ui : Inputs) d :
  start_clicked ui = true →
  li_at_input ui ≠ "" →
  main_app b s ui d
  = (let r := pipeline b s (li_at_input ui) (url_input ui) d in
     Py.Run (Ret tt) (Py.disk r)
       (form_events ++ st_status "Initializing..." true :: Py.events r
        ++ match Py.result r with
           | Ret _ => []
           | Raise e => error_report e
           end)).
Proof.
  intros Hclick Hcookie. rewrite main_app_started by done.
  fold (pipeline b s (li_at_input ui) (url_input ui)).
  unfold Py.try_except, is_Exception, error_report. py_unfold.
  destruct (pipeline b s (li_at_input ui) (url_input ui) d) as [[[]|e] d1 t1];
    cbn [Py.result Py.disk Py.events]; by rewrite ?app_nil_r.
Qed.

(** [main_app] never raises, and reports every exception of a run: when
    the fetch or the extraction block raises [e], the run shows the calls
    made so far, then the exception and the error status, and returns. *)
Theorem main_app_reports_exception
    (b : Browser) (s : Services) (ui : Inputs) (e : exn) d :
  start_clicked ui = true →
  li_at_input ui ≠ "" →
  Py.result (pipeline b s (li_at_input ui) (url_input ui) d) = Raise e →
  main_app b s ui d
  = Py.Run (Ret tt) (Py.disk (pipeline b s (li_at_input ui) (url_input ui) d))
      (form_events
       ++ st_status "Initializing..." true
          :: Py.events (pipeline b s (li_at_input ui) (url_input ui) d)
       ++ [st_exception e; status_update "An error occurred" "error" true]).
Proof.
  intros Hclick Hcookie Hraise.
  rewrite (main_app_guarded b s ui d Hclick Hcookie).
  cbn zeta. by rewrite Hraise.
Qed.

Lemma main_app_reports_exception_witness :
  Py.result (pipeline Double.stalled_browser (Double.services Double.keys (Ret []))
               "AQEDAT" "https://example.org/" ∅)
  = Raise (Exn PlaywrightTimeoutError "Timeout 60000ms exceeded.")
  ∧ Py.result (main_app Double.stalled_browser (Double.services Double.keys (Ret []))
                 {| li_at_input := "AQEDAT"; url_input := "https://example.org/";
                    start_clicked := true |} ∅)
    = Ret tt.
Proof.
  assert (Hcookie : "AQEDAT" ≠ "") by discriminate.
  assert (Hraise : Py.result (pipeline Double.stalled_browser
                      (Double.services Double.keys (Ret []))
                      "AQEDAT" "https://example.org/" ∅)
                   = Raise (Exn PlaywrightTimeoutError "Timeout 60000ms exceeded."))
    by reflexivity.
  split; [exact Hraise|].
  rewrite (main_app_reports_exception Double.stalled_browser
             (Double.services Double.keys (Ret []))
             {| li_at_input := "AQEDAT"; url_input := "https://example.org/";
                start_clicked := true |}
             _ ∅ eq_refl Hcookie Hraise).
  reflexivity.
Defined.

(** A run that completes shows no exception and no error status. *)
Theorem completed_run_shows_no_error
    (b : Browser) (s : Services) (ui : Inputs) d :
  start_clicked ui = true →
  li_at_input ui ≠ "" →
  Py.result (pipeline b s (li_at_input ui) (url_input ui) d) = Ret tt →
  Py.events (main_app b s ui d)
  = form_events
    ++ st_status "Initializing..." true
       :: Py.events (pipeline b s (li_at_input ui) (url_input ui) d).
Proof.
  intros Hclick Hcookie Hret.
  rewrite (main_app_guarded b s ui d Hclick Hcookie).
  cbn zeta. cbn [Py.events]. by rewrite Hret, app_nil_r.
Qed.

Lemma completed_run_shows_no_error_witness :
  Py.result (pipeline (Double.browser Double.login_page)
               (Double.services Double.keys (Ret []))
               "expired" "https://example.org/" ∅)
  = Ret tt
  ∧ existsb (λ ev, match ev with st_exception _ => true | _ => false end)
      (Py.events (main_app (Double.browser Double.login_page)
                    (Double.services Double.keys (Ret []))
                    {| li_at_input := "expired"; url_input := "https://example.org/";
                       start_clicked := true |} ∅))
    = false.
Proof.
  assert (Hcookie : "expired" ≠ "") by discriminate.
  assert (Hret : Py.result (pipeline (Double.browser Double.login_page)
                    (Double.services Double.keys (Ret []))
                    "expired" "https://example.org/" ∅) = Ret tt) by reflexivity.
  split; [exact Hret|].
  rewrite (completed_run_shows_no_error (Double.browser Double.login_page)
             (Double.services Double.keys (Ret []))
             {| li_at_input := "expired"; url_input := "https://example.org/";
                start_clicked := true |}
             ∅ eq_refl Hcookie Hret).
  reflexivity.
Defined.

(** The browser is started exactly when the button has been pressed with a
    cookie typed in: without the press nothing runs, and with an empty cookie
    the run shows "Please enter your 'li_at' cookie." and stops, having made
    no call of the driver or of the extraction stage. *)
Theorem browser_starts_iff_button_and_cookie
    (b : Browser) (s : Services) (ui : Inputs) d :
  existsb is_playwright_start (Py.events (main_app b s ui d))
  = start_clicked ui && negb (String.eqb (li_at_input ui) "")
  ∧ (start_clicked ui = false → main_app b s ui d = Py.Run (Ret tt) d form_events)
  ∧ (start_clicked ui = true → li_at_input ui = "" →
     main_app b s ui d
     = Py.Run (Ret tt) d (form_events ++ [st_error "Please enter your 'li_at' cookie."])).
Proof.
  assert (Hidle : start_clicked ui = false →
                  main_app b s ui d = Py.Run (Ret tt) d form_events).
  { intros Hc. unfold main_app. by rewrite Hc. }
  assert (Hempty : start_clicked ui = true → li_at_input ui = "" →
            main_app b s ui d
            = Py.Run (Ret tt) d
                (form_events ++ [st_error "Please enter your 'li_at' cookie."])).
  { intros Hc He. unfold main_app. by rewrite Hc, He. }
  split; [|by split].
  destruct (start_clicked ui) eqn:Hc.
  - destruct (String.eqb_spec (li_at_input ui) "") as [He|Hne].
    + by rewrite Hempty.
    + rewrite (main_app_guarded b s ui d Hc Hne). cbn zeta. cbn [Py.events].
      rewrite existsb_app. cbn [existsb form_events is_playwright_start orb].
      unfold pipeline. unfold mbind at 1. unfold Py_bind, Py.bind.
      destruct (fetch_starts b (li_at_input ui) (url_input ui) d) as [rest Hrest].
      destruct (get_authenticated_html b (li_at_input ui) (url_input ui) d)
        as [[fragment|e] d1 t1]; cbn [Py.events] in *; subst t1.
      * by destruct (run_extraction s fragment d1).
      * done.
  - by rewrite Hidle.
Qed.

Lemma browser_starts_iff_button_and_cookie_witness :
  main_app (Double.browser Double.feed_page) (Double.services Double.keys (Ret []))
    {| li_at_input := ""; url_input := "https://example.org/"; start_clicked := true |} ∅
  = Py.Run (Ret tt) ∅ (form_events ++ [st_error "Please enter your 'li_at' cookie."]).
Proof.
  apply (proj2 (proj2 (browser_starts_iff_button_and_cookie
                         (Double.browser Double.feed_page)
                         (Double.services Double.keys (Ret []))
                         {| li_at_input := ""; url_input := "https://example.org/";
                            start_clicked := true |} ∅))); first [reflexivity | split; reflexivity].
Defined.

(** The extraction block on a fragment that is not empty starts by writing
    the fragment, wrapped in the document shell, to the temporary file. *)
Lemma run_extraction_writes (s : Services) (html : string) d :
  temp_create s = Ret tt →
  html ≠ "" →
  ∃ trace, Py.events (run_extraction s (Some html) d)
           = TempFileCreate (temp_name s)
             :: FileWrite (temp_name s) (shell html) :: trace.
Proof.
  intros Hcreate Hne. unfold run_extraction. simpl.
  destruct (String.eqb_spec html "") as [|_]; [done|]. simpl.
  unfold mbind at 1. unfold Py_bind, Py.bind.
  rewrite extract_run_cases, Hcreate.
  destruct (temp_write s _); [|by eexists].
  destruct (extract_body _ _ _) as [[v|e] d1 t1]; simpl; [|by eexists].
  match goal with
  | |- context [match ?k with Py.Run _ _ _ => _ end] => destruct k
  end.
  by eexists.
Qed.

(** The two stages compose: what the fetch returns is what the extraction
    is given.  On a run whose fetch returns a fragment that is not empty,
    the calls of the fetch are followed at once by the creation of the
    temporary file and, once it is created, the write of that fragment
    between [<html><body>] and [</body></html>]. *)
Theorem fetched_fragment_is_what_is_extracted
    (b : Browser) (s : Services) (ui : Inputs) (html : string) d :
  start_clicked ui = true →
  li_at_input ui ≠ "" →
  Py.result (get_authenticated_html b (li_at_input ui) (url_input ui) d)
  = Ret (Some html) →
  html ≠ "" →
  temp_create s = Ret tt →
  ∃ rest,
    Py.events (main_app b s ui d)
    = form_events
      ++ st_status "Initializing..." true
         :: Py.events (get_authenticated_html b (li_at_input ui) (url_input ui) d)
      ++ TempFileCreate (temp_name s)
         :: FileWrite (temp_name s) ("<html><body>" +:+ html +:+ "</body></html>")
         :: rest.
Proof.
  intros Hclick Hcookie Hfetch Hne Hcreate.
  rewrite (main_app_guarded b s ui d Hclick Hcookie). cbn zeta. cbn [Py.events].
  unfold pipeline. unfold mbind at 1. unfold Py_bind, Py.bind.
  destruct (get_authenticated_html b (li_at_input ui) (url_input ui) d)
    as [res d1 t1]. cbn [Py.result Py.events] in *. subst res.
  destruct (run_extraction_writes s html d1 Hcreate Hne) as [trace Htrace].
  destruct (run_extraction s (Some html) d1) as [res d2 t2].
  cbn [Py.result Py.events] in *. subst t2. unfold shell.
  eexists. rewrite <- !app_assoc, <- !app_comm_cons. reflexivity.
Qed.

Lemma fetched_fragment_is_what_is_extracted_witness :
  Py.result (get_authenticated_html (Double.browser Double.feed_page) "AQEDAT"
               "https://www.linkedin.com/in/someone/recent-activity/all/" ∅)
  = Ret (Some "<li>post</li>")
  ∧ ∃ rest,
      Py.events (main_app (Double.browser Double.feed_page)
                   (Double.services Double.keys (Ret []))
                   {| li_at_input := "AQEDAT";
                      url_input := "https://www.linkedin.com/in/someone/recent-activity/all/";
                      start_clicked := true |} ∅)
      = form_events
        ++ st_status "Initializing..." true
           :: Py.events (get_authenticated_html (Double.browser Double.feed_page)
                           "AQEDAT"
                           "https://www.linkedin.com/in/someone/recent-activity/all/" ∅)
        ++ TempFileCreate "/tmp/tmpab12cd34.html"
           :: FileWrite "/tmp/tmpab12cd34.html" "<html><body><li>post</li></body></html>"
           :: rest.
Proof.
  assert (Hcookie : "AQEDAT" ≠ "") by discriminate.
  assert (Hne : "<li>post</li>" ≠ "") by discriminate.
  split; [reflexivity|].
  apply (fetched_fragment_is_what_is_extracted (Double.browser Double.feed_page)
           (Double.services Double.keys (Ret []))
           {| li_at_input := "AQEDAT";
              url_input := "https://www.linkedin.com/in/someone/recent-activity/all/";
              start_clicked := true |}
           "<li>post</li>" ∅ eq_refl Hcookie eq_refl Hne eq_refl).
Defined.

(** Once the crawler has started it is closed on every path: however the
    backend call and the result loop end, by a return or by an exception,
    the last two calls of the extraction are the close of the crawler and
    the removal of the temporary file, in that order. *)
Theorem crawler_is_closed_on_every_path
    (s : Services) (html_content key : string) d :
  temp_file_written s html_content →
  secrets s !! "GROQ_API_KEY" = Some key →
  crawler_start s = Ret tt →
  ∃ middle,
    Py.events (extract_with_crawl4ai s html_content d)
    = extraction_prefix s html_content ++ crawl_events s key
      ++ middle ++ [CrawlerClose; Unlink (temp_name s)].
Proof.
  intros Hwritten Hkey Hstart. rewrite (extract_run s html_content d Hwritten).
  cbn zeta. cbn [Py.events].
  unfold extract_body, secrets_get, abspath, crawler_arun. rewrite Hkey, Hstart.
  py_unfold. cbn -[String.append llm_strategy for_loop disk_with_shell].
  destruct (arun s _ _ _) as [[results|e] d1];
    cbn -[String.append llm_strategy for_loop disk_with_shell].
  - destruct (for_loop results (handle_result s) d1) as [[[v|]|e] d2 middle];
      exists middle; cbn; by rewrite <- ?app_assoc, ?app_nil_r.
  - by exists [].
Qed.

Lemma crawler_is_closed_on_every_path_witness :
  ∃ middle,
    Py.events (extract_with_crawl4ai
                 (Double.services Double.keys
                    (Raise (Exn RuntimeError "rate limit exceeded")))
                 "<li>post</li>" ∅)
    = extraction_prefix (Double.services Double.keys
                           (Raise (Exn RuntimeError "rate limit exceeded")))
        "<li>post</li>"
      ++ crawl_events (Double.services Double.keys
                         (Raise (Exn RuntimeError "rate limit exceeded"))) "gsk_test"
      ++ middle ++ [CrawlerClose; Unlink "/tmp/tmpab12cd34.html"].
Proof.
  apply (crawler_is_closed_on_every_path
           (Double.services Double.keys (Raise (Exn RuntimeError "rate limit exceeded")))
           "<li>post</li>" "gsk_test" ∅); first [reflexivity | split; reflexivity].
Defined.

(** A write that raises happens before the [try] block: the exception
    propagates, no clean-up runs, and the file stays as it was created. *)
Example failed_write_leaves_temp_file :
  extract_with_crawl4ai Sample.unwritable "<li>post</li>" ∅
  = Py.Run (Raise (Exn UnicodeEncodeError "surrogates not allowed"))
      {[ "/tmp/tmpab12cd34.html" := "" ]}
      [ TempFileCreate "/tmp/tmpab12cd34.html";
        FileWrite "/tmp/tmpab12cd34.html" "<html><body><li>post</li></body></html>" ].
Proof. reflexivity. Qed.
